(** * AWS Academy credential extractor: a model of [get_aws_access.py]

    The script drives a browser through a login and a lab-activation flow,
    scrapes a credential text, parses it ([AWS.get_secrets]) and appends the
    three credentials to [creds.txt] ([set_github_env]).

    Modelling choices.
    - A Python [str] is a list of Unicode code points ([N]).
    - A Python exception is a value [exn]; code that can raise lives in a
      state-and-error monad [M] over a [world].
    - The browser is an environment the script cannot control: every
      Playwright call asks an oracle [browser], which sees the events so far
      and the call, and answers with a returned value or a raised exception.
      Every call and its answer are recorded, in order, in the world's trace.
      The script reads the returned value of [get_attribute] and of
      [text_content] only; the other calls are made for their effect.
    - The file system is a finite map from paths to contents and a set of
      directories.  A screenshot that is taken is written to its path, the
      directories above the path being made.  [creds.txt] is a text file in
      UTF-8: a text with a surrogate code point cannot be written, and a
      directory cannot be opened as a file.  Other faults of the I/O layer
      (permissions, full disk, a file where a directory is expected) are
      outside the model; newline is not translated on writing (POSIX). *)

From Stdlib Require Import NArith String Ascii List Lia Bool DecimalString.
From stdpp Require Import base option list gmap.
Import ListNotations.

Local Open Scope N_scope.
Local Open Scope list_scope.

(** ** Strings *)

(** A Python [str]: the sequence of its code points. *)
Abbreviation char := N (only parsing).
Abbreviation str := (list N) (only parsing).

(** A source literal (ASCII only) as a [str]. *)
Definition py (s : string) : str := map N_of_ascii (list_ascii_of_string s).

Definition LF : char := 10.
Definition EQUALS : char := 61.
Definition SLASH : char := 47.

(** Whitespace as [str.split()] sees it: CPython's [Py_UNICODE_ISSPACE]. *)
Definition is_space (c : char) : bool :=
  ((9 <=? c) && (c <=? 13)) || ((28 <=? c) && (c <=? 32))
  || (c =? 133) || (c =? 160) || (c =? 5760)
  || ((8192 <=? c) && (c <=? 8202))
  || (c =? 8232) || (c =? 8233) || (c =? 8239) || (c =? 8287) || (c =? 12288).

(** [s.split()]: the maximal runs of non-whitespace characters of [s], in
    order.  [cur] is the token being scanned, most recent character first. *)
Fixpoint split_ws_from (cur : str) (s : str) : list str :=
  match s with
  | [] => match cur with [] => [] | _ => [rev cur] end
  | c :: s' =>
      if is_space c
      then match cur with
           | [] => split_ws_from [] s'
           | _ => rev cur :: split_ws_from [] s'
           end
      else split_ws_from (c :: cur) s'
  end.

Definition split_ws (s : str) : list str := split_ws_from [] s.

(** Puts [c] in front of the first piece of a split. *)
Definition cons_head (c : char) (pieces : list str) : list str :=
  match pieces with
  | [] => [[c]]
  | p :: ps => (c :: p) :: ps
  end.

(** [s.split(sep, maxsplit)] for a one-character separator: [maxsplit] is
    [None] for Python's default (no limit).  The result is never empty, and
    pieces may be empty strings. *)
Fixpoint split_sep (sep : char) (maxsplit : option nat) (s : str) {struct s}
  : list str :=
  match maxsplit with
  | Some O => [s]
  | _ =>
      match s with
      | [] => [[]]
      | c :: s' =>
          if c =? sep
          then [] :: split_sep sep (Nat.pred <$> maxsplit) s'
          else cons_head c (split_sep sep maxsplit s')
      end
  end.

(** [sub in s] on strings. *)
Fixpoint starts_with (sub s : str) : bool :=
  match sub, s with
  | [], _ => true
  | _ :: _, [] => false
  | a :: sub', b :: s' => (a =? b) && starts_with sub' s'
  end.

Fixpoint contains (sub s : str) : bool :=
  starts_with sub s ||
  match s with
  | [] => false
  | _ :: s' => contains sub s'
  end.

(** The lines of a text, as a reader of the file sees them: each line ends
    at a line feed, which is not part of the line; characters after the last
    line feed form a last, unterminated line. *)
Fixpoint lines_from (cur : str) (s : str) : list str :=
  match s with
  | [] => match cur with [] => [] | _ => [rev cur] end
  | c :: s' =>
      if c =? LF then rev cur :: lines_from [] s'
      else lines_from (c :: cur) s'
  end.

Definition lines_of (s : str) : list str := lines_from [] s.

(** The directories above a path, outermost first: for ["a/b/c.png"],
    ["a"] and ["a/b"].  [cur] is the part of the path already scanned, last
    character first. *)
Fixpoint parents_from (cur : str) (path : str) : list str :=
  match path with
  | [] => []
  | c :: rest =>
      if c =? SLASH
      then match cur with
           | [] => parents_from (c :: cur) rest
           | _ => rev cur :: parents_from (c :: cur) rest
           end
      else parents_from (c :: cur) rest
  end.

Definition parents (path : str) : list str := parents_from [] path.

(** The code points UTF-8 can encode: all but the surrogates. *)
Definition encodable (c : char) : bool :=
  (c <? 55296) || ((57343 <? c) && (c <=? 1114111)).

(** Decimal rendering of a number, as an f-string renders an [int]. *)
Definition decimal (n : N) : str := py (NilZero.string_of_uint (N.to_uint n)).

(** ** Exceptions *)

Inductive exn_kind :=
| IndexError | KeyError | TypeError | AttributeError
| UnicodeEncodeError | IsADirectoryError
| TimeoutError | PlaywrightError | Exception_.

(** An exception object: its class, its argument and its [__context__]
    (the exception that was being handled when it was raised). *)
#[local] Unset Elimination Schemes.
Inductive exn :=
| Exc (kind : exn_kind) (arg : exn_arg) (context : option exn)
with exn_arg :=
| ArgStr (msg : str)
| ArgBytes (b : str)
| ArgExn (e : exn).
#[local] Set Elimination Schemes.

Definition exn_context (e : exn) : option exn :=
  match e with Exc _ _ c => c end.

Definition exn_kind_of (e : exn) : exn_kind :=
  match e with Exc k _ _ => k end.

Definition with_context (e handled : exn) : exn :=
  match e with Exc k a _ => Exc k a (Some handled) end.

Definition new_exn (k : exn_kind) (msg : string) : exn :=
  Exc k (ArgStr (py msg)) None.

(** ** The world the script runs in *)

(** An element inside the embedded frame: [page.frame_locator(f).locator(s)].
    Building a locator touches nothing; only its methods reach the browser. *)
Record locator := Locator { loc_frame : str; loc_selector : str }.

(** The Playwright calls the script makes. *)
Inductive call :=
| StartPlaywright
| Launch (headless : bool)
| NewContext
| NewPage
| Goto (url : str)
| Click (selector : str)
| Fill (selector value : str)
| Screenshot (path : str)
| WaitForUrl (url : str) (timeout : N)
| WaitForLoadState (state : str) (timeout : N)
| LocWaitFor (l : locator) (state : option str) (timeout : N)
| LocGetAttribute (l : locator) (name : str)
| LocClick (l : locator)
| LocTextContent (l : locator).

(** What a call does: it returns (a string, the bytes of an image, or
    [None]) or it raises. *)
Inductive outcome :=
| Returns (v : option str)
| Raises (e : exn).

Inductive log_level := INFO | ERROR.

Inductive event :=
| Browser (c : call) (o : outcome)
| Logging (level : log_level) (msg : str)
| MakeDirs (path : str).

Record world := World {
  trace : list event;          (* what happened so far, oldest first *)
  files : gmap (list N) (list N);  (* regular files: path to text *)
  dirs : gset (list N);        (* directories *)
  environ : gmap (list N) (list N);  (* os.environ *)
  clock : N                    (* int(time.time()) when it is read *)
}.

Definition emit (ev : event) (w : world) : world :=
  World (trace w ++ [ev]) (files w) (dirs w) (environ w) (clock w).

Definition set_files (fs : gmap (list N) (list N)) (w : world) : world :=
  World (trace w) fs (dirs w) (environ w) (clock w).

Definition set_dirs (ds : gset (list N)) (w : world) : world :=
  World (trace w) (files w) ds (environ w) (clock w).

(** The text of a file; an absent file reads as empty. *)
Definition content (path : str) (w : world) : str :=
  default [] (files w !! path).

(** ** The monad of Python statements *)

Inductive res (A : Type) :=
| Ok (a : A)
| Raise (e : exn).
Arguments Ok {A} a.
Arguments Raise {A} e.

Definition M (A : Type) : Type := world -> res A * world.

Definition ret {A} (a : A) : M A := fun w => (Ok a, w).

Definition raise {A} (e : exn) : M A := fun w => (Raise e, w).

Definition bind {A B} (m : M A) (k : A -> M B) : M B := fun w =>
  match m w with
  | (Ok a, w') => k a w'
  | (Raise e, w') => (Raise e, w')
  end.

(** [try: body / except Exception as e: handler e].  Every exception of the
    model is an [Exception]; one raised by the handler gets the handled
    exception as its [__context__]. *)
Definition try_except {A} (body : M A) (handler : exn -> M A) : M A := fun w =>
  match body w with
  | (Ok a, w') => (Ok a, w')
  | (Raise e, w') =>
      match handler e w' with
      | (Ok a, w'') => (Ok a, w'')
      | (Raise e', w'') => (Raise (with_context e' e), w'')
      end
  end.

#[global] Instance M_ret : MRet M := @ret.
#[global] Instance M_bind : MBind M := fun A B k m => bind m k.

(** [l[i]] for a literal index [i >= 0]. *)
Definition index {A} (l : list A) (i : nat) : M A :=
  match l !! i with
  | Some x => ret x
  | None => raise (new_exn IndexError "list index out of range")
  end.

Definition logging_info (msg : str) : M unit := fun w =>
  (Ok tt, emit (Logging INFO msg) w).

Definition logging_error (msg : str) : M unit := fun w =>
  (Ok tt, emit (Logging ERROR msg) w).

(** [os.environ[name]].  The mapping behind [os.environ] is keyed by the
    encoded names; its [KeyError], on the bytes of the name, is caught and
    [KeyError(name)] is raised in its place, [from None]: the first stays as
    the context of the second.  The names the script asks for are ASCII, of
    which the bytes are the code points. *)
Definition getenv (name : str) : M str := fun w =>
  match environ w !! name with
  | Some v => (Ok v, w)
  | None =>
      (Raise (Exc KeyError (ArgStr name)
                (Some (Exc KeyError (ArgBytes name) None))), w)
  end.

(** [os.makedirs(path, exist_ok=True)] *)
Definition makedirs (path : str) : M unit := fun w =>
  (Ok tt, emit (MakeDirs path) (set_dirs ({[path]} ∪ dirs w) w)).

(** [int(time.time())] *)
Definition time_now : M N := fun w => (Ok (clock w), w).

(** [open(path, 'a')]: a directory cannot be opened; a file is created when
    absent and kept otherwise.  Of the arguments of the [OSError] the model
    keeps the message, without the file name. *)
Definition open_append (path : str) : M unit := fun w =>
  if bool_decide (path ∈ dirs w)
  then (Raise (new_exn IsADirectoryError "[Errno 21] Is a directory"), w)
  else (Ok tt, set_files (<[path := content path w]> (files w)) w).

(** [f.write(text)] on a text file opened for appending, inside a [with]:
    the text is encoded when it is written, and a text that cannot be
    encoded raises and adds nothing; what was written before stays in the
    file, which the [with] closes.  Of the arguments of the
    [UnicodeEncodeError] the model keeps the reason. *)
Definition file_write (path text : str) : M unit := fun w =>
  if forallb encodable text
  then (Ok tt, set_files (<[path := content path w ++ text]> (files w)) w)
  else (Raise (new_exn UnicodeEncodeError "surrogates not allowed"), w).

(** The exit status of the process: an exception that nothing handles ends
    it with status 1. *)
Definition exit_status {A} (r : res A) : N :=
  match r with
  | Ok _ => 0
  | Raise _ => 1
  end.

(** The browser: what the next call does, given everything so far. *)
Definition oracle : Type := list event -> call -> outcome.

(** What a call leaves on the disk: [page.screenshot(path=...)], when it
    returns, has made the directories above the path and written the image,
    which is also the value it returns. *)
Definition saved (c : call) (o : outcome) (w : world) : world :=
  match c, o with
  | Screenshot path, Returns image =>
      set_dirs (list_to_set (parents path) ∪ dirs w)
        (set_files (<[path := default [] image]> (files w)) w)
  | _, _ => w
  end.

(** One Playwright call: ask the browser, record the call and its answer. *)
Definition page_call (browser : oracle) (c : call) : M (option str) := fun w =>
  let o := browser (trace w) c in
  match o with
  | Returns v => (Ok v, emit (Browser c o) (saved c o w))
  | Raises e => (Raise e, emit (Browser c o) (saved c o w))
  end.

(** ** The script *)

Module AWS.

(** An instance: the page it drives is the only page of the one browser of
    the run, so of its attributes only [screenshots] carries information. *)
Record obj := Obj { screenshots : str }.

Section Session.
Variable browser : oracle.

Definition _login (self : obj) (email password : str) : M unit :=
  logging_info (py "[*] Fazendo login...");;
  page_call browser (Goto (py "https://www.awsacademy.com/vforcesite/LMS_Login"));;
  page_call browser
    (Click (py "body > div.splash-body > a:nth-child(1) > button"));;
  page_call browser (Screenshot (screenshots self ++ py "/1-click_start.png"));;
  page_call browser (Fill (py "#pseudonym_session_unique_id") email);;
  page_call browser (Fill (py "#pseudonym_session_password") password);;
  page_call browser (Screenshot (screenshots self ++ py "/2-send_data.png"));;
  page_call browser
    (Click (py "#login_form > div.ic-Login__actions > div.ic-Form-control.ic-Form-control--login > input"));;
  try_except
    (page_call browser
       (WaitForUrl (py "https://awsacademy.instructure.com/?login_success=1")
          15000);;
     logging_info (py "[+] Login conclu" ++ [237] ++ py "do com sucesso");;
     page_call browser
       (Screenshot (screenshots self ++ py "/3-conclude_login.png"));;
     ret tt)
    (fun _ =>
       logging_error
         (py "[!] Falha no login: credenciais inv" ++ [225] ++ py "lidas ou p"
          ++ [225] ++ py "gina n" ++ [227] ++ py "o carregou corretamente");;
       page_call browser
         (Screenshot (screenshots self ++ py "/3-login_error.png"));;
       raise (new_exn Exception_
                "Login falhou! Verifique suas credenciais ou se o site mudou o layout.")).

Definition __init__ (email password : str) (headless : bool) : M obj :=
  page_call browser StartPlaywright;;
  page_call browser (Launch headless);;
  page_call browser NewContext;;
  page_call browser NewPage;;
  let self := Obj (py "screenshots") in
  logging_info (py "[+] Navegador iniciado");;
  _login self email password;;
  ret self.

Definition configure_aws (self : obj) (conta : str) : M (option str) :=
  logging_info (py "[+] Entrando na AWS");;
  page_call browser
    (Goto (py "https://awsacademy.instructure.com/courses/" ++ conta
           ++ py "/modules/items/12498015"));;
  page_call browser (WaitForLoadState (py "domcontentloaded") 0);;
  page_call browser
    (Screenshot (screenshots self ++ py "/4-configure_aws.png"));;
  logging_info (py "[*] Verificando status da conta");;
  let frame_locator := Locator (py "iframe.tool_launch") in
  let locator := frame_locator (py "#vmstatus") in
  page_call browser (LocWaitFor locator (Some (py "attached")) 30000);;
  classe ← page_call browser (LocGetAttribute locator (py "class"));
  page_call browser
    (Screenshot (screenshots self ++ py "/5-configure_aws_status.png"));;
  match classe with
  | None =>
      raise (new_exn TypeError "argument of type 'NoneType' is not iterable")
  | Some classe =>
      if negb (contains (py "led-green") classe)
      then
        logging_info (py "[*] Inicia a conta da AWS");;
        page_call browser (LocClick (frame_locator (py "#launchclabsbtn")));;
        page_call browser
          (LocWaitFor (frame_locator (py "#vmstatus.led-green")) None 0);;
        ret tt
      else ret tt
  end;;
  logging_info (py "[*] Coletando informa" ++ [231; 245] ++ py "es da AWS");;
  page_call browser (LocClick (frame_locator (py "#detailbtn2")));;
  page_call browser (LocClick (frame_locator (py "#clikeyboxbtn")));;
  page_call browser
    (Screenshot (screenshots self ++ py "/6-show_aws_credentials.png"));;
  let text_locator := frame_locator (py "#clikeybox > pre > span") in
  page_call browser (LocWaitFor text_locator (Some (py "attached")) 0);;
  page_call browser (LocTextContent text_locator).

End Session.

(** A static method: no browser involved. *)
Definition get_secrets (info_raw : str) : M (str * str * str) :=
  let info := split_ws info_raw in
  t1 ← index info 1;
  aws_access_key_id ← index (split_sep EQUALS None t1) 1;
  t2 ← index info 2;
  aws_secret_access_key ← index (split_sep EQUALS None t2) 1;
  t3 ← index info 3;
  aws_session_token ← index (split_sep EQUALS (Some 1%nat) t3) 1;
  logging_info (py "[+] Dados coletados");;
  ret (aws_access_key_id, aws_secret_access_key, aws_session_token).

End AWS.

Definition set_github_env
  (aws_access_key_id aws_secret_access_key aws_session_token : str) : M unit :=
  let env_file := py "creds.txt" in
  open_append env_file;;
  file_write env_file (py "AWS_ACCESS_KEY_ID=" ++ aws_access_key_id ++ [LF]);;
  file_write env_file
    (py "AWS_SECRET_ACCESS_KEY=" ++ aws_secret_access_key ++ [LF]);;
  file_write env_file (py "AWS_SESSION_TOKEN=" ++ aws_session_token ++ [LF]).

(** The script's [__main__] block, in its three parts: what runs before the
    [try], the [try] suite and the [except] suite. *)
Section Main.
Variable browser : oracle.

Definition main_setup : M AWS.obj :=
  EMAIL ← getenv (py "EMAIL");
  SENHA ← getenv (py "PASSWORD");
  AWS.__init__ browser EMAIL SENHA true.

Definition main_try (aws : AWS.obj) : M unit :=
  let CONTA := py "130670" in
  info_raw ← AWS.configure_aws browser aws CONTA;
  '(aws_access_key_id, aws_secret_access_key, aws_session_token) ←
    match info_raw with
    | Some info_raw => AWS.get_secrets info_raw
    | None =>
        raise (new_exn AttributeError
                 "'NoneType' object has no attribute 'split'")
    end;
  set_github_env aws_access_key_id aws_secret_access_key aws_session_token.

Definition main_except (error : exn) : M unit :=
  let screenshot_dir := py "screenshots" in
  makedirs screenshot_dir;;
  timestamp ← time_now;
  let path :=
    screenshot_dir ++ py "/screenshot_error_" ++ decimal timestamp
    ++ py ".png" in
  page_call browser (Screenshot path);;
  logging_info (py "Screenshot salvo em: " ++ path);;
  raise (Exc Exception_ (ArgExn error) None).

Definition main : M unit :=
  aws ← main_setup;
  try_except (main_try aws) main_except.

End Main.

(** ** Vocabulary of the properties *)

(** What may follow the value in tokens 1 and 2: nothing, or a second ['=']
    and any text after it. *)
Definition discarded (rest : str) : Prop :=
  rest = [] ∨ ∃ junk, rest = EQUALS :: junk.

Definition no_space (s : str) : Prop := Forall (λ c, is_space c = false) s.

(** The credential file of the run. *)
Definition creds (w : world) : str := content (py "creds.txt") w.

(** The three [KEY=VALUE] lines of a credential triple. *)
Definition env_lines (a s t : str) : list str :=
  [py "AWS_ACCESS_KEY_ID=" ++ a; py "AWS_SECRET_ACCESS_KEY=" ++ s;
   py "AWS_SESSION_TOKEN=" ++ t].

(** A text made of the given lines, each ended by a line feed. *)
Definition unlines (ls : list str) : str := concat (map (λ l, l ++ [LF]) ls).

(** How many line feeds a string has. *)
Definition line_feeds (s : str) : nat := count_occ N.eq_dec s LF.

(** What a failed [l[i]] raises. *)
Definition index_error : exn := new_exn IndexError "list index out of range".

(** The world after the one message [get_secrets] logs. *)
Definition collected (w : world) : world :=
  emit (Logging INFO (py "[+] Dados coletados")) w.

(** The wait for the login success URL. *)
Definition is_wait_for_url (ev : event) : bool :=
  match ev with
  | Browser (WaitForUrl _ _) _ => true
  | _ => false
  end.

#[global] Instance locator_eq_dec : EqDecision locator.
Proof. solve_decision. Defined.

(** A wait for the login success URL that raised. *)
Definition is_failed_wait (ev : event) : bool :=
  match ev with
  | Browser (WaitForUrl _ _) (Raises _) => true
  | _ => false
  end.

(** The wait of [_login], the message of the exception it raises when the
    wait fails, and what it logs then. *)
Definition login_wait : call :=
  WaitForUrl (py "https://awsacademy.instructure.com/?login_success=1") 15000.

Definition login_failed : exn_arg :=
  ArgStr
    (py "Login falhou! Verifique suas credenciais ou se o site mudou o layout.").

Definition login_failed_log : event :=
  Logging ERROR
    (py "[!] Falha no login: credenciais inv" ++ [225] ++ py "lidas ou p"
     ++ [225] ++ py "gina n" ++ [227] ++ py "o carregou corretamente").

(** The reading of the status indicator's class, and the screenshot taken
    between this reading and the check of the class. *)
Definition status_read (classe : option (list N)) : event :=
  Browser
    (LocGetAttribute (Locator (py "iframe.tool_launch") (py "#vmstatus"))
       (py "class"))
    (Returns classe).

Definition status_screenshot (self : AWS.obj) (v : option (list N)) : event :=
  Browser
    (Screenshot (AWS.screenshots self ++ py "/5-configure_aws_status.png"))
    (Returns v).

Definition is_attribute_read (ev : event) : bool :=
  match ev with
  | Browser (LocGetAttribute _ _) (Returns _) => true
  | _ => false
  end.

Definition is_taken_screenshot (ev : event) : bool :=
  match ev with
  | Browser (Screenshot _) (Returns _) => true
  | _ => false
  end.

(** A click on the control that starts the lab. *)
Definition is_activation_click (ev : event) : bool :=
  match ev with
  | Browser (LocClick l) _ =>
      bool_decide (l = Locator (py "iframe.tool_launch") (py "#launchclabsbtn"))
  | _ => false
  end.

(** A step of the credential extraction: a visit to a course page, the wait
    for it to load, or anything done to an element of the embedded frame. *)
Definition is_extraction_step (ev : event) : bool :=
  match ev with
  | Browser (Goto url) _ =>
      starts_with (py "https://awsacademy.instructure.com/courses/") url
  | Browser (WaitForLoadState _ _) _
  | Browser (LocWaitFor _ _ _) _
  | Browser (LocGetAttribute _ _) _
  | Browser (LocClick _) _
  | Browser (LocTextContent _) _ => true
  | _ => false
  end.

(** The diagnostics of the entry point: creating the directory, and a
    screenshot named after the time. *)
Definition is_entry_diagnostic (ev : event) : bool :=
  match ev with
  | MakeDirs _ => true
  | Browser (Screenshot path) _ =>
      starts_with (py "screenshots/screenshot_error_") path
  | _ => false
  end.

(** How many events of a kind a trace has. *)
Definition count_events (kind : event -> bool) (evs : list event) : nat :=
  length (List.filter kind evs).

(** What a Playwright call gives its caller. *)
Definition result_of (o : outcome) : res (option str) :=
  match o with
  | Returns v => Ok v
  | Raises e => Raise e
  end.

(** [traces Q m]: whatever the world and the browser, running [m] only adds
    events to the trace, and its result [r] and the events [new] it adds
    satisfy [Q r new]. *)
Definition traces {A} (Q : res A -> list event -> Prop) (m : M A) : Prop :=
  ∀ w, ∃ new, trace (snd (m w)) = trace w ++ new ∧ Q (fst (m w)) new.

(** [emits P m]: every event [m] adds to the trace satisfies [P]. *)
Definition emits {A} (P : event -> Prop) (m : M A) : Prop :=
  traces (λ _ new, Forall P new) m.

(** ** Sample runs *)

(** A fresh working directory, the two variables set, a clock reading. *)
Definition world0 : world :=
  World [] ∅ ∅
    (<[py "EMAIL" := py "student@example.org"]>
       (<[py "PASSWORD" := py "hunter2"]> ∅))
    1730624400.

(** A browser in which everything works and the lab is stopped. *)
Definition browser_lab_stopped : oracle := fun _ c =>
  match c with
  | LocGetAttribute _ _ => Returns (Some (py "led led-red"))
  | LocTextContent _ =>
      Returns (Some (py "[default] aws_access_key_id=AKIA123 aws_secret_access_key=SECRET456 aws_session_token=TOK=EN=789"))
  | _ => Returns None
  end.

(** A browser in which the login never reaches the success URL. *)
Definition browser_login_timeout : oracle := fun _ c =>
  match c with
  | WaitForUrl _ _ => Raises (new_exn TimeoutError "Timeout 15000ms exceeded.")
  | _ => Returns None
  end.

(** A browser in which the page shows a text without credentials. *)
Definition browser_no_credentials : oracle := fun _ c =>
  match c with
  | LocGetAttribute _ _ => Returns (Some (py "led led-green"))
  | LocTextContent _ => Returns (Some (py "No credentials"))
  | _ => Returns None
  end.

(** ** Vocabulary of the properties of whole runs *)

(** [keeps f m]: running [m] leaves the part [f] of the world as it was. *)
Definition keeps {A X} (f : world -> X) (m : M A) : Prop :=
  ∀ w, f (snd (m w)) = f w.

(** The element that holds the credential text, and the two controls that
    reveal it. *)
Definition text_locator : locator :=
  Locator (py "iframe.tool_launch") (py "#clikeybox > pre > span").

Definition details_control : locator :=
  Locator (py "iframe.tool_launch") (py "#detailbtn2").

Definition cli_control : locator :=
  Locator (py "iframe.tool_launch") (py "#clikeyboxbtn").

Definition active_indicator : locator :=
  Locator (py "iframe.tool_launch") (py "#vmstatus.led-green").

(** A click on the first control that reveals the credentials. *)
Definition is_details_click (ev : event) : bool :=
  match ev with
  | Browser (LocClick l) _ => bool_decide (l = details_control)
  | _ => false
  end.

(** A browser call that raised. *)
Definition is_raised (ev : event) : bool :=
  match ev with
  | Browser _ (Raises _) => true
  | _ => false
  end.

Definition is_failed_screenshot (ev : event) : bool :=
  match ev with
  | Browser (Screenshot _) (Raises _) => true
  | _ => false
  end.

(** The messages the script can log: nine fixed texts, and the path of the
    screenshot of the entry point. *)
Definition fixed_messages : list (list N) :=
  [py "[+] Navegador iniciado";
   py "[*] Fazendo login...";
   py "[+] Login conclu" ++ [237] ++ py "do com sucesso";
   py "[!] Falha no login: credenciais inv" ++ [225] ++ py "lidas ou p"
     ++ [225] ++ py "gina n" ++ [227] ++ py "o carregou corretamente";
   py "[+] Entrando na AWS";
   py "[*] Verificando status da conta";
   py "[*] Inicia a conta da AWS";
   py "[*] Coletando informa" ++ [231; 245] ++ py "es da AWS";
   py "[+] Dados coletados"].

Definition known_message (msg : str) : Prop :=
  msg ∈ fixed_messages
  ∨ ∃ n, msg = py "Screenshot salvo em: screenshots/screenshot_error_"
               ++ decimal n ++ py ".png".

Definition logs_known_message (ev : event) : Prop :=
  match ev with
  | Logging _ msg => known_message msg
  | _ => True
  end.

(** What is typed into the page is the e-mail, into the field of the user
    name, or the password, into the field of the password. *)
Definition fills_as_intended (email password : str) (ev : event) : Prop :=
  match ev with
  | Browser (Fill selector value) _ =>
      (selector = py "#pseudonym_session_unique_id" ∧ value = email)
      ∨ (selector = py "#pseudonym_session_password" ∧ value = password)
  | _ => True
  end.

(** A browser in which every call returns, the status indicator has a class
    and the credential element has the text [raw]. *)
Definition cooperative (browser : oracle) (raw : str) : Prop :=
  (∀ h c, ∃ v, browser h c = Returns v)
  ∧ (∀ h l name, ∃ classe, browser h (LocGetAttribute l name) = Returns (Some classe))
  ∧ (∀ h l, browser h (LocTextContent l) = Returns (Some raw)).

(** A browser in which the screenshot that follows the login cannot be
    taken. *)
Definition browser_confirmation_fails : oracle := fun _ c =>
  match c with
  | Screenshot path =>
      if bool_decide (path = py "screenshots/3-conclude_login.png")
      then Raises (new_exn PlaywrightError "Target page has been closed")
      else Returns None
  | _ => Returns None
  end.

(** ** Vocabulary of the file on the disk *)

(** [sub] occurs in [s]. *)
Definition occurs_in (sub s : str) : Prop := ∃ pre post, s = pre ++ sub ++ post.

(** A text UTF-8 can encode. *)
Definition encodable_text (s : str) : Prop := Forall (λ c, encodable c = true) s.

(** What there is at [creds.txt]: the file, if any, and whether a
    directory has this name. *)
Definition creds_state (w : world) : option (list N) * bool :=
  (files w !! py "creds.txt", bool_decide (py "creds.txt" ∈ dirs w)).

(** The lines of a triple that reach the file: those before the first
    value that cannot be encoded. *)
Definition written_lines (a s t : str) : list str :=
  if forallb encodable a
  then (py "AWS_ACCESS_KEY_ID=" ++ a)
       :: (if forallb encodable s
           then (py "AWS_SECRET_ACCESS_KEY=" ++ s)
                :: (if forallb encodable t
                    then [py "AWS_SESSION_TOKEN=" ++ t]
                    else [])
           else [])
  else [].

(** A call that stores no screenshot, or one at a path that is [safe]. *)
Definition stores_at (safe : str → Prop) (c : call) : Prop :=
  match c with
  | Screenshot path => safe path
  | _ => True
  end.

(** A browser in which everything works and the secret key shown on the
    page ends with a lone surrogate. *)
Definition browser_unencodable_secret : oracle := fun _ c =>
  match c with
  | LocGetAttribute _ _ => Returns (Some (py "led led-green"))
  | LocTextContent _ =>
      Returns (Some (py "[default] aws_access_key_id=AKIA123 aws_secret_access_key=SECRET"
                     ++ [56448] ++ py " aws_session_token=TOK"))
  | _ => Returns None
  end.

(** A browser in which the status indicator has no class attribute. *)
Definition browser_no_class : oracle := fun _ c =>
  match c with
  | LocGetAttribute _ _ => Returns None
  | _ => Returns None
  end.

(** A browser in which the login never reaches the success URL and the
    screenshot of the failure cannot be taken. *)
Definition browser_login_timeout_no_screenshot : oracle := fun _ c =>
  match c with
  | WaitForUrl _ _ => Raises (new_exn TimeoutError "Timeout 15000ms exceeded.")
  | Screenshot path =>
      if bool_decide (path = py "screenshots/3-login_error.png")
      then Raises (new_exn PlaywrightError "Target page has been closed")
      else Returns None
  | _ => Returns None
  end.

(** A working directory in which [creds.txt] is a directory. *)
Definition world_creds_directory : world :=
  World [] ∅ {[py "creds.txt"]}
    (<[py "EMAIL" := py "student@example.org"]>
       (<[py "PASSWORD" := py "hunter2"]> ∅))
    1730624400.

(** * Properties *)

(** ** Splitting *)

Section Splitting.
Implicit Types (s k v cur : list N) (c sep : N) (m : option nat).

Lemma split_sep_absent sep m s : sep ∉ s → split_sep sep m s = [s].
Proof.
  revert m. induction s as [|c s IH]; intros m Hs.
  - by destruct m as [[|n]|].
  - apply not_elem_of_cons in Hs as [Hc Hs].
    assert ((c =? sep) = false) as Hcs by (apply N.eqb_neq; congruence).
    destruct m as [[|n]|]; simpl; [done| |]; by rewrite Hcs, IH.
Qed.

Lemma split_sep_first sep m k v :
  sep ∉ k → m ≠ Some O →
  split_sep sep m (k ++ sep :: v) = k :: split_sep sep (Nat.pred <$> m) v.
Proof.
  intros Hk Hm. induction k as [|c k IH]; simpl.
  - rewrite N.eqb_refl. by destruct m as [[|n]|].
  - apply not_elem_of_cons in Hk as [Hc Hk].
    assert ((c =? sep) = false) as Hcs by (apply N.eqb_neq; congruence).
    rewrite Hcs, (IH Hk). by destruct m as [[|n]|].
Qed.

(** A string either lacks the separator, or has a first occurrence of it. *)
Lemma first_occurrence sep s :
  sep ∉ s ∨ ∃ k v, s = k ++ sep :: v ∧ sep ∉ k.
Proof.
  induction s as [|c s IH]; [left; apply not_elem_of_nil|].
  destruct (decide (c = sep)) as [->|Hc].
  - right. exists [], s. split; [done|apply not_elem_of_nil].
  - destruct IH as [Hs|(k & v & -> & Hk)].
    + left. apply not_elem_of_cons. split; [congruence|done].
    + right. exists (c :: k), v. split; [done|].
      apply not_elem_of_cons. split; [congruence|done].
Qed.

Lemma split_sep_inv sep m s :
  m ≠ Some O →
  ((sep ∉ s) ∧ split_sep sep m s = [s]) ∨
  (∃ k v, s = k ++ sep :: v ∧ (sep ∉ k) ∧
          split_sep sep m s = k :: split_sep sep (Nat.pred <$> m) v).
Proof.
  intros Hm. destruct (first_occurrence sep s) as [Hs|(k & v & -> & Hk)].
  - left. split; [done|by apply split_sep_absent].
  - right. exists k, v. repeat split; [done|by apply split_sep_first].
Qed.

(** [t.split('=')[1]]: it exists exactly when [t] has an ['='], and is then
    the text between the first ['='] and the next one (or the end). *)
Lemma split_all_second_absent s :
  EQUALS ∉ s → split_sep EQUALS None s !! 1%nat = None.
Proof. intros Hs. by rewrite split_sep_absent. Qed.

Lemma split_all_second k v rest :
  EQUALS ∉ k → EQUALS ∉ v → discarded rest →
  split_sep EQUALS None (k ++ EQUALS :: v ++ rest) !! 1%nat = Some v.
Proof.
  intros Hk Hv Hrest. rewrite split_sep_first by done. simpl.
  destruct Hrest as [->|[junk ->]].
  - rewrite app_nil_r. by rewrite split_sep_absent.
  - by rewrite split_sep_first.
Qed.

Lemma split_all_second_inv s a :
  split_sep EQUALS None s !! 1%nat = Some a →
  ∃ k rest, s = k ++ EQUALS :: a ++ rest ∧ (EQUALS ∉ k) ∧ (EQUALS ∉ a)
            ∧ discarded rest.
Proof.
  intros Ha.
  destruct (split_sep_inv EQUALS None s) as [[_ E]|(k & v & -> & Hk & E)];
    [done| |]; rewrite E in Ha; [done|]. simpl in Ha.
  exists k.
  destruct (split_sep_inv EQUALS None v) as [[Hv E']|(k' & v' & -> & Hk' & E')];
    [done| |]; rewrite E' in Ha; injection Ha as <-.
  - exists []. rewrite app_nil_r. repeat split; try done. by left.
  - exists (EQUALS :: v'). repeat split; try done. right. by exists v'.
Qed.

Lemma split_all_second_last k v :
  EQUALS ∉ k → EQUALS ∉ v →
  split_sep EQUALS None (k ++ EQUALS :: v) !! 1%nat = Some v.
Proof.
  intros Hk Hv. rewrite <- (app_nil_r v) at 1.
  apply split_all_second; [done|done|by left].
Qed.

(** [t.split('=', 1)[1]]: everything after the first ['=']. *)
Lemma split_once_second_absent s :
  EQUALS ∉ s → split_sep EQUALS (Some 1%nat) s !! 1%nat = None.
Proof. intros Hs. by rewrite split_sep_absent. Qed.

Lemma split_once_second k v :
  EQUALS ∉ k → split_sep EQUALS (Some 1%nat) (k ++ EQUALS :: v) !! 1%nat = Some v.
Proof. intros Hk. rewrite split_sep_first by done. by destruct v. Qed.

Lemma split_once_second_inv s a :
  split_sep EQUALS (Some 1%nat) s !! 1%nat = Some a →
  ∃ k, s = k ++ EQUALS :: a ∧ EQUALS ∉ k.
Proof.
  intros Ha.
  destruct (split_sep_inv EQUALS (Some 1%nat) s)
    as [[_ E]|(k & v & -> & Hk & E)]; [done| |]; rewrite E in Ha; [done|].
  exists k. split; [|done]. destruct v; simpl in Ha; by injection Ha as <-.
Qed.

(** The tokens of [s.split()] are non-empty and free of whitespace. *)
Lemma split_ws_from_tokens cur s :
  no_space cur →
  Forall (λ t, t ≠ [] ∧ no_space t) (split_ws_from cur s).
Proof.
  revert cur. induction s as [|c s IH]; intros cur Hcur; simpl.
  - destruct cur as [|d cur]; [constructor|].
    constructor; [|constructor]. split.
    + intros E. apply (f_equal length) in E. simpl in E.
      rewrite length_app in E. simpl in E. lia.
    + by apply Forall_rev.
  - destruct (is_space c) eqn:Hc.
    + destruct cur as [|d cur]; [by apply IH|].
      constructor; [|apply IH; constructor]. split.
      * intros E. apply (f_equal length) in E. simpl in E.
        rewrite length_app in E. simpl in E. lia.
      * by apply Forall_rev.
    + apply IH. by constructor.
Qed.

Lemma split_ws_tokens s i t :
  split_ws s !! i = Some t → t ≠ [] ∧ no_space t.
Proof.
  intros Ht.
  pose proof (split_ws_from_tokens [] s (Forall_nil_2 _)) as H.
  rewrite Forall_lookup in H. by apply (H i).
Qed.

(** Tokens separated by single spaces split back into themselves. *)
Lemma split_ws_from_token cur t s :
  no_space t → cur ++ t ≠ [] →
  split_ws_from cur (t ++ 32 :: s) = (rev cur ++ t) :: split_ws_from [] s.
Proof.
  revert cur. induction t as [|c t IH]; intros cur Ht Hne; simpl.
  - rewrite app_nil_r in *. by destruct cur.
  - apply Forall_cons in Ht as [-> Ht].
    rewrite IH; [|done|by destruct cur]. simpl. by rewrite <- app_assoc.
Qed.

Lemma split_ws_from_last cur t :
  no_space t → cur ++ t ≠ [] → split_ws_from cur t = [rev cur ++ t].
Proof.
  revert cur. induction t as [|c t IH]; intros cur Ht Hne; simpl.
  - rewrite app_nil_r in *. by destruct cur.
  - apply Forall_cons in Ht as [-> Ht].
    rewrite IH; [|done|by destruct cur]. simpl. by rewrite <- app_assoc.
Qed.

Lemma split_ws_spaced t0 t1 t2 t3 :
  Forall (λ t, t ≠ [] ∧ no_space t) [t0; t1; t2; t3] →
  split_ws (t0 ++ 32 :: t1 ++ 32 :: t2 ++ 32 :: t3) = [t0; t1; t2; t3].
Proof.
  rewrite !Forall_cons. intros ([? ?] & [? ?] & [? ?] & [? ?] & _).
  unfold split_ws.
  rewrite !split_ws_from_token by (simpl; done).
  by rewrite split_ws_from_last by (simpl; done).
Qed.

End Splitting.

(** ** Parsing the credential text *)

Lemma index_lookup {A} (l : list A) i w :
  index l i w = match l !! i with
                | Some x => (Ok x, w)
                | None => (Raise index_error, w)
                end.
Proof. unfold index. by destruct (l !! i). Qed.

(** A run of [get_secrets] either raises [IndexError] and leaves the world
    alone, or finds the three values, logs, and returns them. *)
Lemma get_secrets_cases s w :
  AWS.get_secrets s w = (Raise index_error, w) ∨
  ∃ t1 t2 t3 a b c,
    split_ws s !! 1%nat = Some t1 ∧ split_sep EQUALS None t1 !! 1%nat = Some a ∧
    split_ws s !! 2%nat = Some t2 ∧ split_sep EQUALS None t2 !! 1%nat = Some b ∧
    split_ws s !! 3%nat = Some t3 ∧
    split_sep EQUALS (Some 1%nat) t3 !! 1%nat = Some c ∧
    AWS.get_secrets s w = (Ok (a, b, c), collected w).
Proof.
  unfold AWS.get_secrets, mbind, M_bind, bind. rewrite !index_lookup.
  destruct (split_ws s !! 1%nat) as [t1|] eqn:H1; [|by left].
  rewrite index_lookup.
  destruct (split_sep EQUALS None t1 !! 1%nat) as [a|] eqn:Ha; [|by left].
  rewrite index_lookup.
  destruct (split_ws s !! 2%nat) as [t2|] eqn:H2; [|by left].
  rewrite index_lookup.
  destruct (split_sep EQUALS None t2 !! 1%nat) as [b|] eqn:Hb; [|by left].
  rewrite index_lookup.
  destruct (split_ws s !! 3%nat) as [t3|] eqn:H3; [|by left].
  rewrite index_lookup.
  destruct (split_sep EQUALS (Some 1%nat) t3 !! 1%nat) as [c|] eqn:Hc;
    [|by left].
  right. by exists t1, t2, t3, a, b, c.
Qed.

Lemma get_secrets_returns s w t1 t2 t3 a b c :
  split_ws s !! 1%nat = Some t1 → split_sep EQUALS None t1 !! 1%nat = Some a →
  split_ws s !! 2%nat = Some t2 → split_sep EQUALS None t2 !! 1%nat = Some b →
  split_ws s !! 3%nat = Some t3 →
  split_sep EQUALS (Some 1%nat) t3 !! 1%nat = Some c →
  AWS.get_secrets s w = (Ok (a, b, c), collected w).
Proof.
  intros H1 Ha H2 Hb H3 Hc.
  unfold AWS.get_secrets, mbind, M_bind, bind.
  by rewrite !index_lookup, H1, index_lookup, Ha, index_lookup, H2,
    index_lookup, Hb, index_lookup, H3, index_lookup, Hc.
Qed.

(** C1, what fails.  A text can have the form of the claim, with an ['=']
    inside the key id: [get_secrets] then returns the part of the key id
    before this ['='], not the key id. *)
Lemma get_secrets_equals_in_key_id :
  split_ws
    (py "x aws_access_key_id=AK=IA aws_secret_access_key=S aws_session_token=T")
  = [py "x"; py "aws_access_key_id=" ++ py "AK=IA";
     py "aws_secret_access_key=" ++ py "S"; py "aws_session_token=" ++ py "T"]
  ∧ fst (AWS.get_secrets
           (py "x aws_access_key_id=AK=IA aws_secret_access_key=S aws_session_token=T")
           world0)
    = Ok (py "AK", py "S", py "T")
  ∧ ¬ (∀ info_raw ignored K S T more w,
         split_ws info_raw
         = ignored :: (py "aws_access_key_id=" ++ K)
             :: (py "aws_secret_access_key=" ++ S)
             :: (py "aws_session_token=" ++ T) :: more →
         fst (AWS.get_secrets info_raw w) = Ok (K, S, T)).
Proof.
  split; [reflexivity|]. split; [reflexivity|]. intros H.
  specialize (H (py "x aws_access_key_id=AK=IA aws_secret_access_key=S aws_session_token=T")
                (py "x") (py "AK=IA") (py "S") (py "T") [] world0 eq_refl).
  vm_compute in H. discriminate H.
Qed.

(** C1, amended.  For every raw string whose whitespace split is
    [ignored; "aws_access_key_id=K"; "aws_secret_access_key=S";
    "aws_session_token=T"; ...], with [K] and [S] free of ['='],
    [get_secrets] returns exactly [(K, S, T)]; [T] is everything after the
    first ['='] of token 3 and may itself contain ['=']. *)
Theorem get_secrets_well_formed info_raw ignored K S T more w :
  split_ws info_raw
  = ignored :: (py "aws_access_key_id=" ++ K)
      :: (py "aws_secret_access_key=" ++ S)
      :: (py "aws_session_token=" ++ T) :: more →
  EQUALS ∉ K → EQUALS ∉ S →
  AWS.get_secrets info_raw w = (Ok (K, S, T), collected w).
Proof.
  intros Hsplit HK HS.
  apply (get_secrets_returns _ _ (py "aws_access_key_id=" ++ K)
           (py "aws_secret_access_key=" ++ S) (py "aws_session_token=" ++ T));
    try (by rewrite Hsplit).
  - change (py "aws_access_key_id=" ++ K)
      with (py "aws_access_key_id" ++ EQUALS :: K).
    apply split_all_second_last; [|done].
    apply (bool_decide_unpack _). by vm_compute.
  - change (py "aws_secret_access_key=" ++ S)
      with (py "aws_secret_access_key" ++ EQUALS :: S).
    apply split_all_second_last; [|done].
    apply (bool_decide_unpack _). by vm_compute.
  - change (py "aws_session_token=" ++ T)
      with (py "aws_session_token" ++ EQUALS :: T).
    apply split_once_second. apply (bool_decide_unpack _). by vm_compute.
Qed.

(** The end-to-end example of the specification. *)
Lemma get_secrets_well_formed_example :
  AWS.get_secrets
    (py "info aws_access_key_id=AKIA123 aws_secret_access_key=SECRET456 aws_session_token=TOK=EN=789")
    world0
  = (Ok (py "AKIA123", py "SECRET456", py "TOK=EN=789"), collected world0).
Proof.
  apply (get_secrets_well_formed _ (py "info") (py "AKIA123") (py "SECRET456")
           (py "TOK=EN=789") []).
  - reflexivity.
  - apply (bool_decide_unpack _). vm_compute. exact I.
  - apply (bool_decide_unpack _). vm_compute. exact I.
Defined.

(** C2. When the whitespace split has fewer than 4 tokens, or one of the
    tokens 1 to 3 has no ['='], [get_secrets] raises [IndexError]: it returns
    no triple, and it leaves the world as it was. *)
Theorem get_secrets_malformed s w :
  (length (split_ws s) < 4)%nat
  ∨ (∃ i t, (1 ≤ i ≤ 3)%nat ∧ split_ws s !! i = Some t ∧ EQUALS ∉ t) →
  AWS.get_secrets s w = (Raise index_error, w).
Proof.
  intros Hbad.
  destruct (get_secrets_cases s w)
    as [E|(t1 & t2 & t3 & a & b & c & H1 & Ha & H2 & Hb & H3 & Hc & _)];
    [done|exfalso].
  destruct Hbad as [Hlen|(i & t & Hi & Ht & Hno)].
  - apply lookup_lt_Some in H3. lia.
  - assert (i = 1 ∨ i = 2 ∨ i = 3)%nat as [->|[->| ->]] by lia.
    + rewrite H1 in Ht. injection Ht as ->.
      by rewrite split_all_second_absent in Ha.
    + rewrite H2 in Ht. injection Ht as ->.
      by rewrite split_all_second_absent in Hb.
    + rewrite H3 in Ht. injection Ht as ->.
      by rewrite split_once_second_absent in Hc.
Qed.

Lemma get_secrets_malformed_too_short :
  AWS.get_secrets (py "aws_access_key_id=AKIA123 aws_secret_access_key=SECRET456")
    world0
  = (Raise index_error, world0).
Proof.
  apply get_secrets_malformed. left. vm_compute. lia.
Defined.

(** A token with an ['='] reads as key, ['='], value, and what is discarded. *)
Lemma token_shape t :
  EQUALS ∈ t →
  ∃ k v rest, t = k ++ EQUALS :: v ++ rest ∧ (EQUALS ∉ k) ∧ (EQUALS ∉ v)
              ∧ discarded rest.
Proof.
  intros Ht. destruct (first_occurrence EQUALS t) as [?|(k & u & -> & Hk)];
    [done|].
  exists k. destruct (first_occurrence EQUALS u) as [Hu|(v & junk & -> & Hv)].
  - exists u, []. rewrite app_nil_r. repeat split; try done. by left.
  - exists v, (EQUALS :: junk). repeat split; try done. right. by exists junk.
Qed.

Lemma no_space_middle (k v rest : list N) c :
  no_space (k ++ c :: v ++ rest) → no_space v.
Proof.
  unfold no_space. rewrite Forall_app, Forall_cons, Forall_app.
  by intros (_ & _ & Hv & _).
Qed.

(** C5, what fails.  [get_secrets] succeeds on a text whose three tokens end
    at their ['='], and returns three empty strings. *)
Lemma get_secrets_empty_values :
  AWS.get_secrets
    (py "info aws_access_key_id= aws_secret_access_key= aws_session_token=")
    world0
  = (Ok ([], [], []), collected world0)
  ∧ ¬ (∀ s w a b c,
         fst (AWS.get_secrets s w) = Ok (a, b, c) → a ≠ [] ∧ b ≠ [] ∧ c ≠ []).
Proof.
  assert (AWS.get_secrets
            (py "info aws_access_key_id= aws_secret_access_key= aws_session_token=")
            world0
          = (Ok ([], [], []), collected world0)) as E by reflexivity.
  split; [exact E|]. intros H.
  destruct (H _ world0 [] [] [] (f_equal fst E)) as [Ha _]. by apply Ha.
Qed.

(** C5, amended.  When [get_secrets] succeeds, each component is the possibly
    empty, whitespace-free text that follows the first ['='] of its token:
    up to the next ['='] or the end of the token for tokens 1 and 2, up to
    the end of the token for token 3. *)
Theorem get_secrets_components s w a b c :
  fst (AWS.get_secrets s w) = Ok (a, b, c) →
  ∃ t1 t2 t3 k1 r1 k2 r2 k3,
    split_ws s !! 1%nat = Some t1 ∧ split_ws s !! 2%nat = Some t2
    ∧ split_ws s !! 3%nat = Some t3
    ∧ t1 = k1 ++ EQUALS :: a ++ r1 ∧ (EQUALS ∉ k1) ∧ (EQUALS ∉ a)
    ∧ discarded r1
    ∧ t2 = k2 ++ EQUALS :: b ++ r2 ∧ (EQUALS ∉ k2) ∧ (EQUALS ∉ b)
    ∧ discarded r2
    ∧ t3 = k3 ++ EQUALS :: c ∧ (EQUALS ∉ k3)
    ∧ no_space a ∧ no_space b ∧ no_space c.
Proof.
  intros Hok.
  destruct (get_secrets_cases s w)
    as [E|(t1 & t2 & t3 & a' & b' & c' & H1 & Ha & H2 & Hb & H3 & Hc & E)];
    rewrite E in Hok; [done|]. injection Hok as -> -> ->.
  apply split_all_second_inv in Ha as (k1 & r1 & E1 & Hk1 & Hv1 & Hr1).
  apply split_all_second_inv in Hb as (k2 & r2 & E2 & Hk2 & Hv2 & Hr2).
  apply split_once_second_inv in Hc as (k3 & E3 & Hk3).
  exists t1, t2, t3, k1, r1, k2, r2, k3.
  apply split_ws_tokens in H1 as Hs1. apply split_ws_tokens in H2 as Hs2.
  apply split_ws_tokens in H3 as Hs3.
  destruct Hs1 as [_ Hs1], Hs2 as [_ Hs2], Hs3 as [_ Hs3].
  repeat split; try done.
  - rewrite E1 in Hs1. by apply no_space_middle in Hs1.
  - rewrite E2 in Hs2. by apply no_space_middle in Hs2.
  - rewrite E3, <- (app_nil_r c) in Hs3. by apply no_space_middle in Hs3.
Qed.

Lemma get_secrets_components_example :
  ∃ t1 t2 t3 k1 r1 k2 r2 k3,
    split_ws (py "x a=1=2 b= c==") !! 1%nat = Some t1
    ∧ split_ws (py "x a=1=2 b= c==") !! 2%nat = Some t2
    ∧ split_ws (py "x a=1=2 b= c==") !! 3%nat = Some t3
    ∧ t1 = k1 ++ EQUALS :: py "1" ++ r1 ∧ (EQUALS ∉ k1) ∧ (EQUALS ∉ py "1")
    ∧ discarded r1
    ∧ t2 = k2 ++ EQUALS :: [] ++ r2 ∧ (EQUALS ∉ k2) ∧ (EQUALS ∉ [])
    ∧ discarded r2
    ∧ t3 = k3 ++ EQUALS :: py "=" ∧ (EQUALS ∉ k3)
    ∧ no_space (py "1") ∧ no_space [] ∧ no_space (py "=").
Proof.
  apply (get_secrets_components (py "x a=1=2 b= c==") world0).
  reflexivity.
Defined.

(** C9.  On a text with at least 4 tokens whose tokens 1 to 3 contain ['='],
    [get_secrets] succeeds, and its result is read off the tokens 1, 2 and 3
    alone: another text with the same three tokens, whatever its token 0 and
    its tokens after index 3, gives the same triple.  For tokens 1 and 2 the
    value is the text between the first ['='] and the next one: what follows
    a second ['='] is dropped, and nothing is raised. *)
Theorem get_secrets_reads_tokens_1_2_3 s s' w w' t0 t0' t1 t2 t3 more more' :
  split_ws s = t0 :: t1 :: t2 :: t3 :: more →
  split_ws s' = t0' :: t1 :: t2 :: t3 :: more' →
  EQUALS ∈ t1 → EQUALS ∈ t2 → EQUALS ∈ t3 →
  ∃ k1 v1 r1 k2 v2 r2 k3 v3,
    t1 = k1 ++ EQUALS :: v1 ++ r1 ∧ (EQUALS ∉ k1) ∧ (EQUALS ∉ v1)
    ∧ discarded r1
    ∧ t2 = k2 ++ EQUALS :: v2 ++ r2 ∧ (EQUALS ∉ k2) ∧ (EQUALS ∉ v2)
    ∧ discarded r2
    ∧ t3 = k3 ++ EQUALS :: v3 ∧ (EQUALS ∉ k3)
    ∧ AWS.get_secrets s w = (Ok (v1, v2, v3), collected w)
    ∧ AWS.get_secrets s' w' = (Ok (v1, v2, v3), collected w').
Proof.
  intros Hs Hs' H1 H2 H3.
  apply token_shape in H1 as (k1 & v1 & r1 & -> & Hk1 & Hv1 & Hr1).
  apply token_shape in H2 as (k2 & v2 & r2 & -> & Hk2 & Hv2 & Hr2).
  destruct (first_occurrence EQUALS t3) as [?|(k3 & v3 & -> & Hk3)]; [done|].
  exists k1, v1, r1, k2, v2, r2, k3, v3.
  repeat split; try done.
  - eapply get_secrets_returns; try (by rewrite Hs);
      auto using split_all_second, split_once_second.
  - eapply get_secrets_returns; try (by rewrite Hs');
      auto using split_all_second, split_once_second.
Qed.

Lemma get_secrets_reads_tokens_1_2_3_example :
  ∃ k1 v1 r1 k2 v2 r2 k3 v3,
    py "id=AKIA=junk" = k1 ++ EQUALS :: v1 ++ r1 ∧ (EQUALS ∉ k1)
    ∧ (EQUALS ∉ v1) ∧ discarded r1
    ∧ py "key=SECRET" = k2 ++ EQUALS :: v2 ++ r2 ∧ (EQUALS ∉ k2)
    ∧ (EQUALS ∉ v2) ∧ discarded r2
    ∧ py "token=TOK=EN" = k3 ++ EQUALS :: v3 ∧ (EQUALS ∉ k3)
    ∧ AWS.get_secrets (py "first id=AKIA=junk key=SECRET token=TOK=EN") world0
      = (Ok (v1, v2, v3), collected world0)
    ∧ AWS.get_secrets
        (py "other id=AKIA=junk key=SECRET token=TOK=EN and more") world0
      = (Ok (v1, v2, v3), collected world0).
Proof.
  apply (get_secrets_reads_tokens_1_2_3 _ _ _ _ (py "first") (py "other") _ _ _
           [] [py "and"; py "more"]).
  - reflexivity.
  - reflexivity.
  - apply (bool_decide_unpack _). vm_compute. exact I.
  - apply (bool_decide_unpack _). vm_compute. exact I.
  - apply (bool_decide_unpack _). vm_compute. exact I.
Defined.

(** ** Lines of a text *)

Lemma lines_from_line cur l rest :
  LF ∉ l → lines_from cur (l ++ LF :: rest) = (rev cur ++ l) :: lines_from [] rest.
Proof.
  revert cur. induction l as [|c l IH]; intros cur Hl; simpl.
  - by rewrite app_nil_r.
  - apply not_elem_of_cons in Hl as [Hc Hl].
    assert ((c =? LF) = false) as -> by (apply N.eqb_neq; congruence).
    rewrite IH by done. simpl. by rewrite <- app_assoc.
Qed.

(** Reading back a text written line by line gives the lines, provided no
    line has a line feed inside. *)
Lemma lines_of_unlines ls :
  Forall (λ l, LF ∉ l) ls → lines_of (unlines ls) = ls.
Proof.
  unfold lines_of, unlines. induction 1 as [|l ls Hl _ IH]; [done|]. simpl.
  rewrite <- app_assoc. simpl. rewrite lines_from_line by done.
  simpl. by rewrite IH.
Qed.

(** A text that ends with a line feed has as many lines as line feeds. *)
Lemma lines_from_count cur s :
  length (lines_from cur (s ++ [LF])) = S (line_feeds s).
Proof.
  unfold line_feeds. revert cur. induction s as [|c s IH]; intros cur; simpl.
  - done.
  - destruct (N.eqb_spec c LF) as [->|Hc].
    + simpl. rewrite IH. by destruct (N.eq_dec LF LF).
    + rewrite IH. by destruct (N.eq_dec c LF).
Qed.

Lemma line_feeds_app s1 s2 : line_feeds (s1 ++ s2) = (line_feeds s1 + line_feeds s2)%nat.
Proof. apply count_occ_app. Qed.

Lemma line_feeds_none s : line_feeds s = 0%nat ↔ LF ∉ s.
Proof.
  unfold line_feeds. rewrite <- count_occ_not_In. by rewrite list_elem_of_In.
Qed.

Lemma unlines_env_lines_count a s t :
  length (lines_of (unlines (env_lines a s t)))
  = (3 + line_feeds a + line_feeds s + line_feeds t)%nat.
Proof.
  unfold lines_of, unlines, env_lines. cbn [concat map].
  rewrite app_nil_r, !app_assoc, lines_from_count, !line_feeds_app.
  change (line_feeds (py "AWS_ACCESS_KEY_ID=")) with 0%nat.
  change (line_feeds (py "AWS_SECRET_ACCESS_KEY=")) with 0%nat.
  change (line_feeds (py "AWS_SESSION_TOKEN=")) with 0%nat.
  change (line_feeds [LF]) with 1%nat. lia.
Qed.

Lemma env_lines_one_line_each a s t :
  LF ∉ a → LF ∉ s → LF ∉ t → Forall (λ l, LF ∉ l) (env_lines a s t).
Proof.
  intros Ha Hs Ht. unfold env_lines.
  repeat constructor; apply not_elem_of_app; (split; [|done]);
    apply (bool_decide_unpack _); by vm_compute.
Qed.

(** ** Writing the credential file *)

Lemma content_written p x fs w : content p (set_files (<[p:=x]> fs) w) = x.
Proof. unfold content. simpl. by rewrite lookup_insert_eq. Qed.

Lemma encodable_text_forallb s : encodable_text s ↔ forallb encodable s = true.
Proof.
  unfold encodable_text. rewrite forallb_forall, Forall_forall.
  by setoid_rewrite list_elem_of_In.
Qed.

Lemma written_lines_all a s t :
  encodable_text a → encodable_text s → encodable_text t →
  written_lines a s t = env_lines a s t.
Proof.
  rewrite !encodable_text_forallb. intros Ha Hs Ht.
  unfold written_lines. by rewrite Ha, Hs, Ht.
Qed.

(** A line of the file can be encoded when its value can. *)
Lemma encodable_line (key : string) value :
  forallb encodable (py key) = true →
  forallb encodable (py key ++ value ++ [LF]) = forallb encodable value.
Proof.
  intros Hkey. rewrite !forallb_app, Hkey. simpl.
  by rewrite andb_true_r.
Qed.

(** Where [creds.txt] is a directory, [set_github_env] raises at once. *)
Lemma set_github_env_directory a s t w :
  py "creds.txt" ∈ dirs w →
  set_github_env a s t w
  = (Raise (new_exn IsADirectoryError "[Errno 21] Is a directory"), w).
Proof.
  intros Hdir. unfold set_github_env, mbind, M_bind, bind, open_append.
  cbv zeta. by rewrite bool_decide_eq_true_2.
Qed.

(** Elsewhere it writes the lines one after the other, up to the first
    value that cannot be encoded, on which it raises. *)
Lemma set_github_env_run a s t w :
  py "creds.txt" ∉ dirs w →
  set_github_env a s t w
  = (if forallb encodable a && forallb encodable s && forallb encodable t
     then Ok ()
     else Raise (new_exn UnicodeEncodeError "surrogates not allowed"),
     set_files
       (<[py "creds.txt" := creds w ++ unlines (written_lines a s t)]>
          (files w)) w).
Proof.
  intros Hdir. unfold set_github_env, mbind, M_bind, bind, open_append.
  cbv zeta. rewrite bool_decide_eq_false_2 by done.
  unfold file_write, written_lines.
  rewrite (encodable_line "AWS_ACCESS_KEY_ID=") by reflexivity.
  destruct (forallb encodable a); cbn [andb].
  2:{ unfold creds, unlines. cbn [concat map]. by rewrite app_nil_r. }
  rewrite (encodable_line "AWS_SECRET_ACCESS_KEY=") by reflexivity.
  rewrite !content_written.
  destruct (forallb encodable s); cbn [andb].
  2:{ unfold set_files at 1 2 3. cbn [files trace dirs environ clock].
      rewrite !insert_insert_eq. unfold creds, unlines. cbn [concat map].
      by rewrite !app_nil_r, <- !app_assoc. }
  rewrite (encodable_line "AWS_SESSION_TOKEN=") by reflexivity.
  rewrite !content_written.
  destruct (forallb encodable t).
  - unfold set_files at 1 2 3 4 5 6. cbn [files trace dirs environ clock].
    rewrite !insert_insert_eq. unfold set_files, creds, unlines.
    cbn [concat map]. by rewrite app_nil_r, <- !app_assoc.
  - unfold set_files at 1 2 3 4 5. cbn [files trace dirs environ clock].
    rewrite !insert_insert_eq. unfold set_files, creds, unlines.
    cbn [concat map]. by rewrite app_nil_r, <- !app_assoc.
Qed.

Lemma set_github_env_returns a s t w :
  encodable_text a → encodable_text s → encodable_text t →
  py "creds.txt" ∉ dirs w →
  set_github_env a s t w
  = (Ok (), set_files
              (<[py "creds.txt" := creds w ++ unlines (env_lines a s t)]>
                 (files w)) w).
Proof.
  intros Ha Hs Ht Hdir. rewrite set_github_env_run by done.
  rewrite written_lines_all by done.
  apply encodable_text_forallb in Ha, Hs, Ht. by rewrite Ha, Hs, Ht.
Qed.

(** Whatever happens, the file only grows, no other file changes and no
    directory is made. *)
Lemma set_github_env_grows a s t w :
  ∃ appended,
    creds (snd (set_github_env a s t w)) = creds w ++ appended
    ∧ (∀ p, p ≠ py "creds.txt" →
            files (snd (set_github_env a s t w)) !! p = files w !! p)
    ∧ dirs (snd (set_github_env a s t w)) = dirs w.
Proof.
  destruct (decide (py "creds.txt" ∈ dirs w)) as [Hdir|Hdir].
  - rewrite set_github_env_directory by done. exists [].
    by rewrite app_nil_r.
  - rewrite set_github_env_run by done.
    exists (unlines (written_lines a s t)). cbn [snd].
    split; [apply content_written|]. split; [|done].
    intros p Hp. cbn [files set_files]. by rewrite lookup_insert_ne.
Qed.

(** The values [get_secrets] returns are pieces of whitespace-separated
    tokens: they have no line feed inside. *)
Lemma no_space_one_line s : no_space s → LF ∉ s.
Proof.
  intros Hs Hin. unfold no_space in Hs. rewrite Forall_forall in Hs.
  by apply Hs in Hin.
Qed.

Lemma get_secrets_values_one_line s w a b c :
  fst (AWS.get_secrets s w) = Ok (a, b, c) → (LF ∉ a) ∧ (LF ∉ b) ∧ (LF ∉ c).
Proof.
  intros Hok.
  destruct (get_secrets_cases s w)
    as [E|(t1 & t2 & t3 & a' & b' & c' & H1 & Ha & H2 & Hb & H3 & Hc & E)];
    rewrite E in Hok; [done|]. injection Hok as -> -> ->.
  apply split_all_second_inv in Ha as (k1 & r1 & -> & _).
  apply split_all_second_inv in Hb as (k2 & r2 & -> & _).
  apply split_once_second_inv in Hc as (k3 & -> & _).
  apply split_ws_tokens in H1 as [_ H1]. apply split_ws_tokens in H2 as [_ H2].
  apply split_ws_tokens in H3 as [_ H3]. rewrite <- (app_nil_r c) in H3.
  repeat split; eapply no_space_one_line, no_space_middle; eassumption.
Qed.

(** C3, what fails.  The values are written as they are: a value with a line
    feed inside makes the call append four lines, one of them a line of its
    own choosing.  A value that cannot be encoded makes the call raise with
    the lines before it appended, here one; and where [creds.txt] is a
    directory the call raises and appends nothing. *)
Lemma set_github_env_not_three_lines :
  lines_of
    (creds (snd (set_github_env (py "AKIA" ++ [LF] ++ py "PATH=x") (py "S")
                   (py "T") world0)))
  = [py "AWS_ACCESS_KEY_ID=AKIA"; py "PATH=x"; py "AWS_SECRET_ACCESS_KEY=S";
     py "AWS_SESSION_TOKEN=T"]
  ∧ (∃ e, fst (set_github_env (py "AKIA") (py "S" ++ [56448]) (py "T")
                 world0) = Raise e
          ∧ exn_kind_of e = UnicodeEncodeError)
  ∧ lines_of
      (creds (snd (set_github_env (py "AKIA") (py "S" ++ [56448]) (py "T")
                     world0)))
    = [py "AWS_ACCESS_KEY_ID=AKIA"]
  ∧ (∃ e, set_github_env (py "AKIA") (py "S") (py "T") world_creds_directory
          = (Raise e, world_creds_directory)
          ∧ exn_kind_of e = IsADirectoryError)
  ∧ ¬ (∀ a s t w,
         ∃ appended,
           creds (snd (set_github_env a s t w)) = creds w ++ appended
           ∧ lines_of appended = env_lines a s t).
Proof.
  split; [reflexivity|].
  split; [eexists; split; reflexivity|]. split; [reflexivity|].
  split; [eexists; split; reflexivity|]. intros H.
  destruct (H (py "AKIA" ++ [LF] ++ py "PATH=x") (py "S") (py "T") world0)
    as (appended & E & Hlines).
  change (creds world0 ++ appended) with appended in E.
  rewrite <- E in Hlines. vm_compute in Hlines. discriminate Hlines.
Qed.

(** C3, amended.  A call of [set_github_env] with values free of line feeds
    that can be encoded, where [creds.txt] is not a directory, returns and
    appends to the file exactly three lines, [AWS_ACCESS_KEY_ID=...],
    [AWS_SECRET_ACCESS_KEY=...] and [AWS_SESSION_TOKEN=...], in this order,
    each ended by a line feed. *)
Theorem set_github_env_three_lines a s t w :
  LF ∉ a → LF ∉ s → LF ∉ t →
  encodable_text a → encodable_text s → encodable_text t →
  py "creds.txt" ∉ dirs w →
  fst (set_github_env a s t w) = Ok ()
  ∧ creds (snd (set_github_env a s t w))
    = creds w ++ unlines (env_lines a s t)
  ∧ lines_of (unlines (env_lines a s t)) = env_lines a s t.
Proof.
  intros Ha Hs Ht Ea Es Et Hdir. rewrite set_github_env_returns by done.
  split; [done|]. split; [apply content_written|].
  apply lines_of_unlines. by apply env_lines_one_line_each.
Qed.

Lemma set_github_env_three_lines_example :
  fst (set_github_env (py "AKIA123") (py "SECRET456") (py "TOK=EN=789") world0)
  = Ok ()
  ∧ creds (snd (set_github_env (py "AKIA123") (py "SECRET456")
                  (py "TOK=EN=789") world0))
    = creds world0
      ++ unlines (env_lines (py "AKIA123") (py "SECRET456") (py "TOK=EN=789"))
  ∧ lines_of
      (unlines (env_lines (py "AKIA123") (py "SECRET456") (py "TOK=EN=789")))
    = env_lines (py "AKIA123") (py "SECRET456") (py "TOK=EN=789").
Proof.
  apply set_github_env_three_lines;
    apply (bool_decide_unpack _); vm_compute; exact I.
Defined.

(** C4, what fails.  Two calls with different triples leave seven lines, not
    six, when one value has a line feed inside; four lines when a value of
    the second triple cannot be encoded; and none where [creds.txt] is a
    directory. *)
Lemma set_github_env_twice_not_six_lines :
  length
    (lines_of
       (creds
          (snd (set_github_env (py "A2") (py "S2") (py "T2")
                  (snd (set_github_env (py "A1" ++ [LF] ++ py "B") (py "S1")
                          (py "T1") world0))))))
  = 7%nat
  ∧ length
      (lines_of
         (creds
            (snd (set_github_env (py "A2") (py "S2" ++ [56448]) (py "T2")
                    (snd (set_github_env (py "A1") (py "S1") (py "T1")
                            world0))))))
    = 4%nat
  ∧ length
      (lines_of
         (creds
            (snd (set_github_env (py "A2") (py "S2") (py "T2")
                    (snd (set_github_env (py "A1") (py "S1") (py "T1")
                            world_creds_directory))))))
    = 0%nat
  ∧ ¬ (∀ a1 s1 t1 a2 s2 t2 w,
         (a1, s1, t1) ≠ (a2, s2, t2) →
         ∃ appended,
           creds (snd (set_github_env a2 s2 t2
                         (snd (set_github_env a1 s1 t1 w))))
           = creds w ++ appended
           ∧ length (lines_of appended) = 6%nat).
Proof.
  do 3 (split; [reflexivity|]). intros H.
  destruct (H (py "A1" ++ [LF] ++ py "B") (py "S1") (py "T1")
              (py "A2") (py "S2") (py "T2") world0)
    as (appended & E & Hlines); [by vm_compute|].
  change (creds world0 ++ appended) with appended in E.
  rewrite <- E in Hlines. vm_compute in Hlines. discriminate Hlines.
Qed.

(** C4, amended.  [set_github_env] only appends: whatever its arguments and
    whether it returns or raises, what the file held is kept as it was, at
    the front, and no other file changes.  Where [creds.txt] is not a
    directory and the values can be encoded, two calls leave the lines of
    the first triple and then those of the second, the same triple twice
    included; these are six lines when no value has a line feed inside. *)
Theorem set_github_env_appends a1 s1 t1 a2 s2 t2 w :
  let w1 := snd (set_github_env a1 s1 t1 w) in
  let w2 := snd (set_github_env a2 s2 t2 w1) in
  (∃ appended1 appended2,
     creds w1 = creds w ++ appended1 ∧ creds w2 = creds w1 ++ appended2)
  ∧ (∀ p, p ≠ py "creds.txt" → files w2 !! p = files w !! p)
  ∧ (py "creds.txt" ∉ dirs w →
     encodable_text a1 → encodable_text s1 → encodable_text t1 →
     encodable_text a2 → encodable_text s2 → encodable_text t2 →
     creds w1 = creds w ++ unlines (env_lines a1 s1 t1)
     ∧ creds w2
       = creds w ++ unlines (env_lines a1 s1 t1 ++ env_lines a2 s2 t2)
     ∧ (LF ∉ a1 → LF ∉ s1 → LF ∉ t1 → LF ∉ a2 → LF ∉ s2 → LF ∉ t2 →
        lines_of (unlines (env_lines a1 s1 t1 ++ env_lines a2 s2 t2))
        = env_lines a1 s1 t1 ++ env_lines a2 s2 t2)).
Proof.
  cbv zeta.
  destruct (set_github_env_grows a1 s1 t1 w) as (app1 & E1 & F1 & D1).
  destruct (set_github_env_grows a2 s2 t2 (snd (set_github_env a1 s1 t1 w)))
    as (app2 & E2 & F2 & D2).
  split; [by exists app1, app2|].
  split; [intros p Hp; by rewrite F2, F1|].
  intros Hdir Ea1 Es1 Et1 Ea2 Es2 Et2.
  assert (creds (snd (set_github_env a1 s1 t1 w))
          = creds w ++ unlines (env_lines a1 s1 t1)) as E1'.
  { rewrite set_github_env_returns by done. apply content_written. }
  split; [done|]. split.
  - rewrite (set_github_env_returns a2 s2 t2) by (by rewrite ?D1).
    cbn [snd]. unfold creds at 1.
    rewrite content_written, E1', <- app_assoc. f_equal.
    unfold unlines. by rewrite map_app, concat_app.
  - intros. apply lines_of_unlines, Forall_app.
    split; by apply env_lines_one_line_each.
Qed.

Lemma set_github_env_appends_example :
  creds (snd (set_github_env (py "A1") (py "S1") (py "T1") world0))
  = creds world0 ++ unlines (env_lines (py "A1") (py "S1") (py "T1"))
  ∧ creds (snd (set_github_env (py "A2") (py "S2") (py "T2")
                  (snd (set_github_env (py "A1") (py "S1") (py "T1") world0))))
    = creds world0
      ++ unlines (env_lines (py "A1") (py "S1") (py "T1")
                  ++ env_lines (py "A2") (py "S2") (py "T2"))
  ∧ lines_of
      (unlines (env_lines (py "A1") (py "S1") (py "T1")
                ++ env_lines (py "A2") (py "S2") (py "T2")))
    = env_lines (py "A1") (py "S1") (py "T1")
      ++ env_lines (py "A2") (py "S2") (py "T2").
Proof.
  destruct (set_github_env_appends (py "A1") (py "S1") (py "T1")
              (py "A2") (py "S2") (py "T2") world0) as (_ & _ & H).
  destruct H as (H1 & H2 & H3);
    [apply (bool_decide_unpack _); vm_compute; exact I..|].
  split; [exact H1|]. split; [exact H2|].
  apply H3; apply (bool_decide_unpack _); vm_compute; exact I.
Defined.

(** C10, what fails.  A value that cannot be encoded (here a secret key
    with a lone surrogate) stops the call at the line of this value: the
    call raises [UnicodeEncodeError], and what was appended is the one line
    before it.  And where [creds.txt] is a directory nothing is appended. *)
Lemma set_github_env_unencodable_value :
  (∃ e, fst (set_github_env (py "A") (py "S" ++ [56448]) (py "T") world0)
        = Raise e
        ∧ exn_kind_of e = UnicodeEncodeError)
  ∧ creds (snd (set_github_env (py "A") (py "S" ++ [56448]) (py "T") world0))
    = py "AWS_ACCESS_KEY_ID=A" ++ [LF]
  ∧ (∃ e, set_github_env (py "A") (py "S") (py "T") world_creds_directory
          = (Raise e, world_creds_directory)
          ∧ exn_kind_of e = IsADirectoryError)
  ∧ ¬ (∀ a s t w,
         creds (snd (set_github_env a s t w))
         = creds w ++ py "AWS_ACCESS_KEY_ID=" ++ a ++ [LF]
           ++ py "AWS_SECRET_ACCESS_KEY=" ++ s ++ [LF]
           ++ py "AWS_SESSION_TOKEN=" ++ t ++ [LF]).
Proof.
  split; [by eexists|]. split; [reflexivity|]. split; [by eexists|].
  intros H. specialize (H (py "A") (py "S" ++ [56448]) (py "T") world0).
  vm_compute in H. discriminate H.
Qed.

(** C10, amended.  Where [creds.txt] is not a directory, [set_github_env]
    writes the values that can be encoded as they are, with no escaping and
    no validation: the text appended is ["AWS_ACCESS_KEY_ID=" + a + "\n" +
    "AWS_SECRET_ACCESS_KEY=" + s + "\n" + "AWS_SESSION_TOKEN=" + t + "\n"].
    This text has exactly three lines if and only if no value has a line
    feed inside. *)
Theorem set_github_env_verbatim a s t w :
  encodable_text a → encodable_text s → encodable_text t →
  py "creds.txt" ∉ dirs w →
  let appended :=
    py "AWS_ACCESS_KEY_ID=" ++ a ++ [LF]
    ++ py "AWS_SECRET_ACCESS_KEY=" ++ s ++ [LF]
    ++ py "AWS_SESSION_TOKEN=" ++ t ++ [LF] in
  fst (set_github_env a s t w) = Ok ()
  ∧ creds (snd (set_github_env a s t w)) = creds w ++ appended
  ∧ (length (lines_of appended) = 3%nat ↔ (LF ∉ a) ∧ (LF ∉ s) ∧ (LF ∉ t)).
Proof.
  intros Ea Es Et Hdir. cbv zeta.
  assert (py "AWS_ACCESS_KEY_ID=" ++ a ++ [LF]
          ++ py "AWS_SECRET_ACCESS_KEY=" ++ s ++ [LF]
          ++ py "AWS_SESSION_TOKEN=" ++ t ++ [LF]
          = unlines (env_lines a s t)) as ->.
  { unfold unlines, env_lines. cbn [concat map].
    by rewrite app_nil_r, <- !app_assoc. }
  rewrite set_github_env_returns by done.
  split; [done|]. split; [apply content_written|].
  rewrite unlines_env_lines_count, <- !line_feeds_none. lia.
Qed.

Lemma set_github_env_verbatim_example :
  fst (set_github_env (py "AKIA") (py "a b" ++ [LF] ++ py "c") (py "T=") world0)
  = Ok ()
  ∧ creds (snd (set_github_env (py "AKIA") (py "a b" ++ [LF] ++ py "c")
                  (py "T=") world0))
    = creds world0
      ++ py "AWS_ACCESS_KEY_ID=" ++ py "AKIA" ++ [LF]
      ++ py "AWS_SECRET_ACCESS_KEY=" ++ (py "a b" ++ [LF] ++ py "c") ++ [LF]
      ++ py "AWS_SESSION_TOKEN=" ++ py "T=" ++ [LF]
  ∧ (length
       (lines_of
          (py "AWS_ACCESS_KEY_ID=" ++ py "AKIA" ++ [LF]
           ++ py "AWS_SECRET_ACCESS_KEY=" ++ (py "a b" ++ [LF] ++ py "c")
           ++ [LF] ++ py "AWS_SESSION_TOKEN=" ++ py "T=" ++ [LF]))
     = 3%nat
     ↔ (LF ∉ py "AKIA") ∧ (LF ∉ py "a b" ++ [LF] ++ py "c") ∧ (LF ∉ py "T=")).
Proof.
  apply (set_github_env_verbatim (py "AKIA") (py "a b" ++ [LF] ++ py "c")
           (py "T=") world0);
    apply (bool_decide_unpack _); vm_compute; exact I.
Defined.

(** ** A logic of traces *)

Section TraceLogic.
Context {A B : Type}.
Implicit Types (Q : res A → list event → Prop) (m : M A).

Lemma traces_mono Q (Q' : res A → list event → Prop) m :
  traces Q m → (∀ r new, Q r new → Q' r new) → traces Q' m.
Proof.
  intros Hm HQ w. destruct (Hm w) as (new & E & H). exists new. auto.
Qed.

Lemma traces_ret Q (a : A) : Q (Ok a) [] → traces Q (mret a).
Proof. intros H w. exists []. by rewrite app_nil_r. Qed.

Lemma traces_raise Q e : Q (Raise e) [] → traces Q (raise e).
Proof. intros H w. exists []. by rewrite app_nil_r. Qed.

Lemma traces_bind (Q : res B → list event → Prop) m (k : A → M B) :
  traces (λ r new1,
            match r with
            | Ok a => traces (λ r2 new2, Q r2 (new1 ++ new2)) (k a)
            | Raise e => Q (Raise e) new1
            end) m →
  traces Q (m ≫= k).
Proof.
  intros Hm w. destruct (Hm w) as (new1 & E1 & H1).
  unfold mbind, M_bind, bind.
  destruct (m w) as [[a|e] w1]; simpl in *.
  - destruct (H1 w1) as (new2 & E2 & H2). exists (new1 ++ new2).
    by rewrite E2, E1, app_assoc.
  - by exists new1.
Qed.

Lemma traces_try_except Q m (handler : exn → M A) :
  traces (λ r new1,
            match r with
            | Ok a => Q (Ok a) new1
            | Raise e =>
                traces (λ r2 new2,
                          Q match r2 with
                            | Ok a => Ok a
                            | Raise e' => Raise (with_context e' e)
                            end (new1 ++ new2)) (handler e)
            end) m →
  traces Q (try_except m handler).
Proof.
  intros Hm w. destruct (Hm w) as (new1 & E1 & H1). unfold try_except.
  destruct (m w) as [[a|e] w1]; simpl in *.
  - by exists new1.
  - destruct (H1 w1) as (new2 & E2 & H2). exists (new1 ++ new2).
    destruct (handler e w1) as [[a|e'] w2]; simpl in *;
      by rewrite E2, E1, app_assoc.
Qed.

End TraceLogic.

Lemma trace_saved c o w : trace (saved c o w) = trace w.
Proof. by destruct c, o. Qed.

Section TraceRules.
Context {A : Type}.

Lemma traces_page_call (Q : res (option (list N)) → list event → Prop)
    browser c :
  (∀ o, Q (result_of o) [Browser c o]) → traces Q (page_call browser c).
Proof.
  intros H w. exists [Browser c (browser (trace w) c)]. unfold page_call.
  specialize (H (browser (trace w) c)).
  destruct (browser (trace w) c); cbn [fst snd trace emit];
    by rewrite trace_saved.
Qed.

Lemma traces_logging_info (Q : res () → list event → Prop) msg :
  Q (Ok ()) [Logging INFO msg] → traces Q (logging_info msg).
Proof. intros H w. by exists [Logging INFO msg]. Qed.

Lemma traces_logging_error (Q : res () → list event → Prop) msg :
  Q (Ok ()) [Logging ERROR msg] → traces Q (logging_error msg).
Proof. intros H w. by exists [Logging ERROR msg]. Qed.

Lemma traces_makedirs (Q : res () → list event → Prop) path :
  Q (Ok ()) [MakeDirs path] → traces Q (makedirs path).
Proof. intros H w. by exists [MakeDirs path]. Qed.

Lemma traces_getenv (Q : res (list N) → list event → Prop) name :
  (∀ r, Q r []) → traces Q (getenv name).
Proof.
  intros H w. exists []. unfold getenv.
  destruct (environ w !! name); simpl; by rewrite app_nil_r.
Qed.

Lemma traces_time_now (Q : res N → list event → Prop) :
  (∀ r, Q r []) → traces Q time_now.
Proof. intros H w. exists []. simpl. by rewrite app_nil_r. Qed.

Lemma traces_index (Q : res A → list event → Prop) (l : list A) i :
  (∀ r, Q r []) → traces Q (index l i).
Proof.
  intros H w. exists []. rewrite index_lookup.
  destruct (l !! i); simpl; by rewrite app_nil_r.
Qed.

Lemma traces_open_append (Q : res () → list event → Prop) path :
  (∀ r, Q r []) → traces Q (open_append path).
Proof.
  intros H w. exists []. unfold open_append.
  destruct (bool_decide (path ∈ dirs w)); simpl; by rewrite app_nil_r.
Qed.

Lemma traces_file_write (Q : res () → list event → Prop) path text :
  (∀ r, Q r []) → traces Q (file_write path text).
Proof.
  intros H w. exists []. unfold file_write.
  destruct (forallb encodable text); simpl; by rewrite app_nil_r.
Qed.

End TraceRules.

(** From a fact about all runs to a fact about the events of one run. *)
Lemma traces_run {A} (Q : res A → list event → Prop) (m : M A) w new :
  traces Q m → trace (snd (m w)) = trace w ++ new → Q (fst (m w)) new.
Proof.
  intros Hm E. destruct (Hm w) as (new' & E' & H).
  rewrite E in E'. by apply app_inv_head in E' as ->.
Qed.

Lemma count_events_app kind evs1 evs2 :
  count_events kind (evs1 ++ evs2)
  = (count_events kind evs1 + count_events kind evs2)%nat.
Proof. unfold count_events. by rewrite List.filter_app, length_app. Qed.

Lemma count_events_none kind evs :
  Forall (λ ev, kind ev = false) evs → count_events kind evs = 0%nat.
Proof.
  unfold count_events. induction 1 as [|ev evs Hev _ IH]; [done|].
  simpl. by rewrite Hev.
Qed.

Lemma not_of_kind (kind : event → bool) ev evs :
  kind ev = true → Forall (λ x, kind x = false) evs → ev ∉ evs.
Proof.
  intros Hev Hevs Hin. rewrite Forall_forall in Hevs.
  apply Hevs in Hin. congruence.
Qed.

(** ** Which events each part of the script can add *)

Section Emits.
Context {A B : Type} (P : event → Prop).

Lemma emits_bind (m : M A) (k : A → M B) :
  emits P m → (∀ a, emits P (k a)) → emits P (m ≫= k).
Proof.
  intros Hm Hk. apply traces_bind. eapply traces_mono; [exact Hm|].
  intros [a|e] new1 H1; [|done].
  eapply traces_mono; [apply Hk|]. intros r2 new2 H2. by apply Forall_app.
Qed.

Lemma emits_try_except (m : M A) (handler : exn → M A) :
  emits P m → (∀ e, emits P (handler e)) → emits P (try_except m handler).
Proof.
  intros Hm Hh. apply traces_try_except. eapply traces_mono; [exact Hm|].
  intros [a|e] new1 H1; [done|].
  eapply traces_mono; [apply Hh|]. intros r2 new2 H2. by apply Forall_app.
Qed.

Lemma emits_ret (a : A) : emits P (mret a).
Proof. by apply traces_ret. Qed.

Lemma emits_raise e : emits P (raise (A:=A) e).
Proof. by apply traces_raise. Qed.

Lemma emits_index (l : list A) i : emits P (index l i).
Proof. by apply traces_index. Qed.

End Emits.

Section EmitsRules.
Context (P : event → Prop).

Lemma emits_page_call browser c :
  (∀ o, P (Browser c o)) → emits P (page_call browser c).
Proof. intros H. apply traces_page_call. intros o. by constructor. Qed.

Lemma emits_logging_info msg :
  P (Logging INFO msg) → emits P (logging_info msg).
Proof. intros H. apply traces_logging_info. by constructor. Qed.

Lemma emits_logging_error msg :
  P (Logging ERROR msg) → emits P (logging_error msg).
Proof. intros H. apply traces_logging_error. by constructor. Qed.

Lemma emits_makedirs path : P (MakeDirs path) → emits P (makedirs path).
Proof. intros H. apply traces_makedirs. by constructor. Qed.

Lemma emits_getenv name : emits P (getenv name).
Proof. by apply traces_getenv. Qed.

Lemma emits_time_now : emits P time_now.
Proof. by apply traces_time_now. Qed.

Lemma emits_open_append path : emits P (open_append path).
Proof. by apply traces_open_append. Qed.

Lemma emits_file_write path text : emits P (file_write path text).
Proof. by apply traces_file_write. Qed.

End EmitsRules.

(** Goes through a piece of the script, one statement at a time, leaving
    the events whose kind does not settle by computation. *)
Ltac emits_step :=
  lazymatch goal with
  | |- emits _ (mbind _ _) => apply emits_bind; [|intros ?]
  | |- emits _ (try_except _ _) => apply emits_try_except; [|intros ?]
  | |- emits _ (page_call _ _) => apply emits_page_call; intros ?
  | |- emits _ (logging_info _) => apply emits_logging_info
  | |- emits _ (logging_error _) => apply emits_logging_error
  | |- emits _ (makedirs _) => apply emits_makedirs
  | |- emits _ (getenv _) => apply emits_getenv
  | |- emits _ time_now => apply emits_time_now
  | |- emits _ (open_append _) => apply emits_open_append
  | |- emits _ (file_write _ _) => apply emits_file_write
  | |- emits _ (index _ _) => apply emits_index
  | |- emits _ (mret _) => apply emits_ret
  | |- emits _ (ret _) => apply emits_ret
  | |- emits _ (raise _) => apply emits_raise
  | |- emits _ (match ?x with _ => _ end) => destruct x
  end.

Ltac emits_all := cbv zeta; repeat emits_step; try reflexivity.

Section WhatIsEmitted.
Variable browser : oracle.

Lemma get_secrets_logs_only (kind : event → bool) info_raw :
  kind (Logging INFO (py "[+] Dados coletados")) = false →
  emits (λ ev, kind ev = false) (AWS.get_secrets info_raw).
Proof. intros H. unfold AWS.get_secrets. emits_all. exact H. Qed.

Lemma set_github_env_silent P a s t : emits P (set_github_env a s t).
Proof. unfold set_github_env. emits_all. Qed.

End WhatIsEmitted.

Lemma of_kind_filter (kind : event → bool) ev evs :
  ev ∈ evs → kind ev = true → ev ∈ List.filter kind evs.
Proof.
  intros Hin Hk. apply list_elem_of_In, List.filter_In.
  by rewrite <- list_elem_of_In.
Qed.

(** ** Login *)

(** Runs a piece of the script symbolically, one statement at a time, with
    a case for each thing the browser can answer. *)
Ltac traces_step :=
  lazymatch goal with
  | |- traces _ (try_except (main_try _ _) _) => fail
  | |- traces _ (mbind _ _) => apply traces_bind
  | |- traces _ (try_except _ _) => apply traces_try_except
  | |- traces _ (page_call _ _) =>
      apply traces_page_call; intros [?|?]; cbn [result_of]
  | |- traces _ (logging_info _) => apply traces_logging_info
  | |- traces _ (logging_error _) => apply traces_logging_error
  | |- traces _ (getenv _) => apply traces_getenv; intros [?|?]
  | |- traces _ (mret _) => apply traces_ret
  | |- traces _ (ret _) => apply traces_ret
  | |- traces _ (raise _) => apply traces_raise
  | |- traces _ (if negb ?b then _ else _) => destruct b eqn:?; cbn [negb]
  | |- traces _ (match ?x with _ => _ end) => destruct x eqn:?
  end.

Ltac traces_all :=
  cbv zeta; repeat (traces_step; cbv beta iota); cbn [app AWS.screenshots].

(** Once the constructor has returned, no wait for the login URL fails:
    there is none left. *)
Lemma after_login_no_failed_wait browser aws :
  emits (λ ev, is_failed_wait ev = false)
    (try_except (main_try browser aws) (main_except browser)).
Proof.
  apply emits_try_except.
  - unfold main_try. emits_all.
    + unfold AWS.configure_aws. emits_all.
    + by apply get_secrets_logs_only.
    + apply set_github_env_silent.
  - intros e. unfold main_except. emits_all.
Qed.

(** The constructor does not return after a failed wait. *)
Lemma main_setup_returned browser :
  traces (λ r new,
            ∀ aws, r = Ok aws → Forall (λ ev, is_failed_wait ev = false) new)
    (main_setup browser).
Proof.
  unfold main_setup, AWS.__init__, AWS._login. traces_all.
  all: intros aws' [=]. by repeat constructor.
Qed.

(** What a failed wait leads to, in the part of the script that runs before
    the [try]. *)
Lemma main_setup_failed_wait browser :
  traces (λ r new,
            ∀ e, Browser login_wait (Raises e) ∈ new →
                 ∃ steps o e',
                   new = steps
                         ++ [Browser login_wait (Raises e); login_failed_log;
                             Browser
                               (Screenshot (py "screenshots/3-login_error.png"))
                               o]
                   ∧ count_events is_wait_for_url new = 1%nat
                   ∧ Forall (λ ev, is_extraction_step ev = false) new
                   ∧ r = Raise e'
                   ∧ exn_context e' = Some e
                   ∧ (∀ v, o = Returns v →
                           e' = Exc Exception_ login_failed (Some e))
                   ∧ (∀ e2, o = Raises e2 → e' = with_context e2 e))
    (main_setup browser).
Proof.
  unfold main_setup, AWS.__init__, AWS._login. traces_all.
  all: try (intros e' Hin; exfalso; revert Hin;
            apply (not_of_kind is_failed_wait);
            [reflexivity|by repeat constructor]).
  - lazymatch goal with
    | |- ∀ _, _ ∈ ?L → _ => intros e' Hin; exists (take (length L - 3) L)
    end.
    apply (of_kind_filter is_failed_wait) in Hin; [|reflexivity].
    cbn [List.filter is_failed_wait] in Hin.
    apply list_elem_of_singleton in Hin. injection Hin as ->.
    eexists _, _. split; [reflexivity|].
    split; [reflexivity|]. split; [by repeat constructor|].
    split; [reflexivity|]. split; [reflexivity|].
    split; [intros ? _; reflexivity|intros ? [=]].
  - lazymatch goal with
    | |- ∀ _, _ ∈ ?L → _ => intros e' Hin; exists (take (length L - 3) L)
    end.
    apply (of_kind_filter is_failed_wait) in Hin; [|reflexivity].
    cbn [List.filter is_failed_wait] in Hin.
    apply list_elem_of_singleton in Hin. injection Hin as ->.
    eexists _, _. split; [reflexivity|].
    split; [reflexivity|]. split; [by repeat constructor|].
    split; [reflexivity|]. split; [by destruct e0|].
    split; [intros ? [=]|intros ? [= <-]; reflexivity].
Qed.

(** C7, what fails.  When the login times out and the screenshot of the
    failure cannot be taken, no screenshot is captured and the script does
    not end with the exception of the login: it ends with the exception of
    the screenshot, the timeout being its context. *)
Lemma main_login_timeout_without_screenshot :
  fst (main browser_login_timeout_no_screenshot world0)
  = Raise (Exc PlaywrightError (ArgStr (py "Target page has been closed"))
             (Some (new_exn TimeoutError "Timeout 15000ms exceeded.")))
  ∧ fst (main browser_login_timeout_no_screenshot world0)
    ≠ Raise (Exc Exception_ login_failed
               (Some (new_exn TimeoutError "Timeout 15000ms exceeded.")))
  ∧ files (snd (main browser_login_timeout_no_screenshot world0))
    !! py "screenshots/3-login_error.png" = None
  ∧ last (trace (snd (main browser_login_timeout_no_screenshot world0)))
    = Some (Browser (Screenshot (py "screenshots/3-login_error.png"))
              (Raises (new_exn PlaywrightError "Target page has been closed"))).
Proof.
  split; [reflexivity|]. split; [by vm_compute|]. split; reflexivity.
Qed.

(** C7, amended.  In a run of the script in which the wait for the login
    success URL raised [e]: the wait is the only one of the run (no retry);
    what follows it is the error message and the call for the screenshot
    [3-login_error.png], and nothing else; the script ends where the
    constructor ends, with the exception it raises: the [try] block does not
    start, and no step of the credential extraction is in the trace; the
    context of the exception is [e]; when the screenshot is taken the
    exception is the [Exception] "Login falhou! ...", and when the
    screenshot raises it is the exception of the screenshot; the exit
    status is 1. *)
Theorem login_timeout_fails_before_extraction browser w new e :
  trace (snd (main browser w)) = trace w ++ new →
  Browser login_wait (Raises e) ∈ new →
  ∃ steps o e',
    new = steps ++ [Browser login_wait (Raises e); login_failed_log;
                    Browser (Screenshot (py "screenshots/3-login_error.png")) o]
    ∧ count_events is_wait_for_url new = 1%nat
    ∧ Forall (λ ev, is_extraction_step ev = false) new
    ∧ main_setup browser w = (Raise e', snd (main browser w))
    ∧ fst (main browser w) = Raise e'
    ∧ exn_context e' = Some e
    ∧ (∀ v, o = Returns v → e' = Exc Exception_ login_failed (Some e))
    ∧ (∀ e2, o = Raises e2 → e' = with_context e2 e)
    ∧ exit_status (fst (main browser w)) = 1.
Proof.
  intros Htrace Hin.
  destruct (main_setup browser w) as [[aws|e0] w1] eqn:Esetup.
  - (* the constructor returned: no wait has failed, and none will *)
    exfalso.
    destruct (main_setup_returned browser w) as (new1 & E1 & H1).
    rewrite Esetup in E1, H1. cbn [fst snd] in E1, H1.
    destruct (after_login_no_failed_wait browser aws w1) as (new2 & E2 & H2).
    assert (main browser w
            = try_except (main_try browser aws) (main_except browser) w1)
      as Emain by (unfold main, mbind, M_bind, bind; by rewrite Esetup).
    rewrite Emain, E2, E1, <- app_assoc in Htrace.
    apply app_inv_head in Htrace as <-.
    apply elem_of_app in Hin as [Hin|Hin]; revert Hin;
      apply (not_of_kind is_failed_wait); try reflexivity; [by eapply H1|done].
  - (* the constructor raised: the script stops there *)
    assert (main browser w = (Raise e0, w1)) as Emain
      by (unfold main, mbind, M_bind, bind; by rewrite Esetup).
    rewrite Emain in *. cbn [fst snd] in *.
    pose proof (traces_run _ _ w new (main_setup_failed_wait browser)) as H.
    rewrite Esetup in H. cbn [fst snd] in H.
    destruct (H Htrace e Hin)
      as (steps & o & e' & Hnew & Hcount & Hsteps & [= ->] & Hctx & Hshot
          & Hnoshot).
    by exists steps, o, e'.
Qed.

Lemma login_timeout_fails_before_extraction_example :
  ∃ steps o e',
    trace (snd (main browser_login_timeout world0))
    = steps ++ [Browser login_wait
                  (Raises (new_exn TimeoutError "Timeout 15000ms exceeded."));
                login_failed_log;
                Browser (Screenshot (py "screenshots/3-login_error.png")) o]
    ∧ count_events is_wait_for_url
        (trace (snd (main browser_login_timeout world0))) = 1%nat
    ∧ Forall (λ ev, is_extraction_step ev = false)
        (trace (snd (main browser_login_timeout world0)))
    ∧ main_setup browser_login_timeout world0
      = (Raise e', snd (main browser_login_timeout world0))
    ∧ fst (main browser_login_timeout world0) = Raise e'
    ∧ exn_context e'
      = Some (new_exn TimeoutError "Timeout 15000ms exceeded.")
    ∧ (∀ v, o = Returns v →
            e' = Exc Exception_ login_failed
                   (Some (new_exn TimeoutError "Timeout 15000ms exceeded.")))
    ∧ (∀ e2, o = Raises e2 →
             e' = with_context e2
                    (new_exn TimeoutError "Timeout 15000ms exceeded."))
    ∧ exit_status (fst (main browser_login_timeout world0)) = 1.
Proof.
  apply (login_timeout_fails_before_extraction browser_login_timeout world0).
  - reflexivity.
  - apply (list_elem_of_lookup_2 _ 13). reflexivity.
Defined.

(** ** Activation of the lab *)

(** Every run only adds to the trace: the events of a run are well defined. *)
Lemma configure_aws_trace_grows browser self conta w :
  ∃ new, trace (snd (AWS.configure_aws browser self conta w)) = trace w ++ new.
Proof.
  assert (emits (λ _, True) (AWS.configure_aws browser self conta)) as H
    by (unfold AWS.configure_aws; emits_all; exact I).
  destruct (H w) as (new & E & _). by exists new.
Qed.

Lemma main_trace_grows browser w :
  ∃ new, trace (snd (main browser w)) = trace w ++ new.
Proof.
  assert (emits (λ _, True) (main browser)) as H.
  { unfold main, main_setup, main_try, main_except, AWS.__init__, AWS._login,
      AWS.configure_aws, AWS.get_secrets, set_github_env.
    emits_all; exact I. }
  destruct (H w) as (new & E & _). by exists new.
Qed.

(** What [in] computes on strings. *)
Lemma starts_with_spec sub s :
  starts_with sub s = true ↔ ∃ post, s = sub ++ post.
Proof.
  revert s. induction sub as [|a sub IH]; intros s; simpl.
  - split; [intros _; by exists s|done].
  - destruct s as [|b s]; [split; [done|by intros [? [=]]]|].
    rewrite andb_true_iff, N.eqb_eq, IH. split.
    + intros [-> [post ->]]. by exists post.
    + intros [post [= -> ->]]. split; [done|by exists post].
Qed.

Lemma contains_spec sub s : contains sub s = true ↔ occurs_in sub s.
Proof.
  unfold occurs_in. induction s as [|c s IH]; simpl.
  - rewrite orb_false_r, starts_with_spec. split.
    + intros [post E]. by exists [], post.
    + intros (pre & post & E). symmetry in E.
      apply app_eq_nil in E as [-> E]. apply app_eq_nil in E as [-> ->].
      by exists [].
  - rewrite orb_true_iff, starts_with_spec, IH. split.
    + intros [[post ->]|(pre & post & ->)]; [by exists [], post|].
      by exists (c :: pre), post.
    + intros (pre & post & E). destruct pre as [|c' pre].
      * left. by exists post.
      * injection E as -> ->. right. by exists pre, post.
Qed.

(** The count of the clicks, by the test the code makes. *)
Lemma configure_aws_activation_count browser self conta w new classe v :
  trace (snd (AWS.configure_aws browser self conta w)) = trace w ++ new →
  status_read (Some classe) ∈ new →
  status_screenshot self v ∈ new →
  count_events is_activation_click new
  = if contains (py "led-green") classe then 0%nat else 1%nat.
Proof.
  intros Htrace. revert classe v. pattern new.
  match goal with |- ?Q _ => set (post := λ _ : res (option (list N)), Q) end.
  change (post (fst (AWS.configure_aws browser self conta w)) new).
  apply (traces_run post (AWS.configure_aws browser self conta));
    [|exact Htrace].
  clear. unfold AWS.configure_aws. traces_all.
  all: intros classe' v' Hread Hshot.
  all: apply (of_kind_filter is_attribute_read) in Hread; [|reflexivity];
       cbn [List.filter is_attribute_read] in Hread.
  all: try (by apply elem_of_nil in Hread).
  all: apply list_elem_of_singleton in Hread; injection Hread as Hread;
       try discriminate Hread; try (injection Hread as Hread); subst.
  all: try (match goal with
            | H : contains _ _ = _ |- _ => rewrite H; reflexivity
            end).
  all: apply (of_kind_filter is_taken_screenshot) in Hshot; [|reflexivity];
       cbn [List.filter is_taken_screenshot] in Hshot.
  all: apply list_elem_of_singleton in Hshot; injection Hshot as Hpath _;
       apply app_inv_head in Hpath; vm_compute in Hpath; discriminate Hpath.
Qed.

(** C8, what fails.  A status indicator without a [class] attribute is not
    in the active state, and the control that starts the lab is not
    clicked: the check of the class raises [TypeError]. *)
Lemma configure_aws_indicator_without_class :
  status_read None
  ∈ trace (snd (AWS.configure_aws browser_no_class (AWS.Obj (py "screenshots"))
                  (py "130670") world0))
  ∧ count_events is_activation_click
      (trace (snd (AWS.configure_aws browser_no_class
                     (AWS.Obj (py "screenshots")) (py "130670") world0)))
    = 0%nat
  ∧ ∃ e, fst (AWS.configure_aws browser_no_class
                (AWS.Obj (py "screenshots")) (py "130670") world0)
         = Raise e
         ∧ exn_kind_of e = TypeError.
Proof.
  split; [apply (list_elem_of_lookup_2 _ 6); reflexivity|].
  split; [reflexivity|]. eexists. split; reflexivity.
Qed.

(** C8, amended.  In a run of [configure_aws] that read the class attribute
    of the status indicator as a string and reached the check of it (the
    screenshot before the check was taken): the control that starts the lab
    is clicked not at all when [led-green] occurs in the class, and exactly
    once when it does not. *)
Theorem configure_aws_activation browser self conta w new classe v :
  trace (snd (AWS.configure_aws browser self conta w)) = trace w ++ new →
  status_read (Some classe) ∈ new →
  status_screenshot self v ∈ new →
  (occurs_in (py "led-green") classe →
   count_events is_activation_click new = 0%nat)
  ∧ (¬ occurs_in (py "led-green") classe →
     count_events is_activation_click new = 1%nat).
Proof.
  intros Htrace Hread Hshot.
  rewrite (configure_aws_activation_count _ _ _ _ _ _ _ Htrace Hread Hshot).
  rewrite <- contains_spec.
  destruct (contains (py "led-green") classe); split; done.
Qed.

Lemma configure_aws_activation_example :
  count_events is_activation_click
    (trace (snd (AWS.configure_aws browser_lab_stopped
                   (AWS.Obj (py "screenshots")) (py "130670") world0)))
  = 1%nat
  ∧ count_events is_activation_click
      (trace (snd (AWS.configure_aws browser_no_credentials
                     (AWS.Obj (py "screenshots")) (py "130670") world0)))
    = 0%nat.
Proof.
  split.
  - apply (configure_aws_activation browser_lab_stopped
             (AWS.Obj (py "screenshots")) (py "130670") world0 _
             (py "led led-red") None).
    + reflexivity.
    + apply (list_elem_of_lookup_2 _ 6). reflexivity.
    + apply (list_elem_of_lookup_2 _ 7). reflexivity.
    + rewrite <- contains_spec. by vm_compute.
  - apply (configure_aws_activation browser_no_credentials
             (AWS.Obj (py "screenshots")) (py "130670") world0 _
             (py "led led-green") None).
    + reflexivity.
    + apply (list_elem_of_lookup_2 _ 6). reflexivity.
    + apply (list_elem_of_lookup_2 _ 7). reflexivity.
    + by exists (py "led "), [].
Defined.

(** An indicator without a [class] attribute is not checked: the test of
    [None] raises [TypeError], and nothing is clicked. *)
Lemma configure_aws_no_class browser self conta w new :
  trace (snd (AWS.configure_aws browser self conta w)) = trace w ++ new →
  status_read None ∈ new →
  count_events is_activation_click new = 0%nat
  ∧ ∃ e, fst (AWS.configure_aws browser self conta w) = Raise e.
Proof.
  intros Htrace. pattern (fst (AWS.configure_aws browser self conta w)), new.
  match goal with |- ?Q _ _ => set (post := Q) end.
  apply (traces_run post (AWS.configure_aws browser self conta));
    [|exact Htrace].
  clear. unfold AWS.configure_aws. traces_all.
  all: intros Hread.
  all: apply (of_kind_filter is_attribute_read) in Hread; [|reflexivity];
       cbn [List.filter is_attribute_read] in Hread.
  all: try (by apply elem_of_nil in Hread).
  all: apply list_elem_of_singleton in Hread;
       try (injection Hread as Hread; try discriminate Hread; subst).
  all: split; [reflexivity|by eexists].
Qed.

(** ** The entry point *)

(** C6, what fails.  When the login times out, the exception leaves the
    script from the constructor, before the [try]: [os.makedirs] is not
    called and no screenshot named after the time is taken or stored.  And
    when the [try] block
    raises (here [IndexError], on a text without credentials), what the
    script raises is a new [Exception] around it. *)
Lemma main_login_failure_no_diagnostics :
  fst (main browser_login_timeout world0)
  = Raise (Exc Exception_ login_failed
             (Some (new_exn TimeoutError "Timeout 15000ms exceeded.")))
  ∧ count_events is_entry_diagnostic
      (trace (snd (main browser_login_timeout world0))) = 0%nat
  ∧ files (snd (main browser_login_timeout world0))
    !! py "screenshots/screenshot_error_1730624400.png" = None
  ∧ fst (main browser_no_credentials world0)
    = Raise (Exc Exception_ (ArgExn index_error) (Some index_error))
  ∧ fst (main browser_no_credentials world0) ≠ Raise index_error.
Proof.
  repeat split; try reflexivity. by vm_compute.
Qed.

(** C6, amended.  When the [try] block (extraction, parsing, writing the
    file) raises [e], the entry point makes sure the directory [screenshots]
    exists and asks for a screenshot named after the time.  When the
    screenshot is taken, the image is stored under that path, the path is
    logged and [Exception(e)] is raised, a new exception with [e] as its
    argument and its context; when the screenshot raises, no file changes
    and that exception leaves the script, with [e] as its context.  Either
    way the exit status is 1. *)
Theorem main_failure_diagnostics browser w aws w1 e w2 :
  main_setup browser w = (Ok aws, w1) →
  main_try browser aws w1 = (Raise e, w2) →
  let path :=
    py "screenshots/screenshot_error_" ++ decimal (clock w2) ++ py ".png" in
  let o := browser (trace w2 ++ [MakeDirs (py "screenshots")]) (Screenshot path) in
  py "screenshots" ∈ dirs (snd (main browser w))
  ∧ files (snd (main browser w))
    = match o with
      | Returns image => <[path := default [] image]> (files w2)
      | Raises _ => files w2
      end
  ∧ exit_status (fst (main browser w)) = 1
  ∧ match o with
    | Returns _ =>
        fst (main browser w) = Raise (Exc Exception_ (ArgExn e) (Some e))
        ∧ trace (snd (main browser w))
          = trace w2
            ++ [MakeDirs (py "screenshots"); Browser (Screenshot path) o;
                Logging INFO (py "Screenshot salvo em: " ++ path)]
    | Raises e2 =>
        fst (main browser w) = Raise (with_context e2 e)
        ∧ trace (snd (main browser w))
          = trace w2
            ++ [MakeDirs (py "screenshots"); Browser (Screenshot path) o]
    end.
Proof.
  intros Hsetup Htry path o.
  assert (main browser w
          = match o with
            | Returns _ =>
                (Raise (Exc Exception_ (ArgExn e) (Some e)),
                 emit (Logging INFO (py "Screenshot salvo em: " ++ path))
                   (emit (Browser (Screenshot path) o)
                      (saved (Screenshot path) o
                         (emit (MakeDirs (py "screenshots"))
                            (set_dirs ({[py "screenshots"]} ∪ dirs w2) w2)))))
            | Raises e2 =>
                (Raise (with_context e2 e),
                 emit (Browser (Screenshot path) o)
                   (emit (MakeDirs (py "screenshots"))
                      (set_dirs ({[py "screenshots"]} ∪ dirs w2) w2)))
            end) as ->.
  { unfold main, mbind, M_bind, bind. rewrite Hsetup.
    unfold try_except. rewrite Htry.
    unfold main_except, mbind, M_bind, bind, makedirs, time_now, page_call,
      logging_info, raise.
    cbv zeta. cbn [trace emit set_dirs clock].
    change (py "screenshots" ++ py "/screenshot_error_" ++ decimal (clock w2)
            ++ py ".png") with path.
    fold o. by destruct o. }
  destruct o;
    cbn [fst snd trace emit set_dirs set_files saved files dirs exit_status];
    (repeat split; [set_solver|by rewrite <- !app_assoc]).
Qed.

Lemma main_failure_diagnostics_example :
  let w1 := snd (main_setup browser_no_credentials world0) in
  let w2 :=
    snd (main_try browser_no_credentials (AWS.Obj (py "screenshots")) w1) in
  let w3 := snd (main browser_no_credentials world0) in
  py "screenshots" ∈ dirs w3
  ∧ files w3
    = <[py "screenshots/screenshot_error_1730624400.png" := []]> (files w2)
  ∧ exit_status (fst (main browser_no_credentials world0)) = 1
  ∧ fst (main browser_no_credentials world0)
    = Raise (Exc Exception_ (ArgExn index_error) (Some index_error))
  ∧ trace w3
    = trace w2
      ++ [MakeDirs (py "screenshots");
          Browser
            (Screenshot (py "screenshots/screenshot_error_1730624400.png"))
            (Returns None);
          Logging INFO
            (py "Screenshot salvo em: screenshots/screenshot_error_1730624400.png")].
Proof.
  apply (main_failure_diagnostics browser_no_credentials world0
           (AWS.Obj (py "screenshots"))
           (snd (main_setup browser_no_credentials world0)) index_error
           (snd (main_try browser_no_credentials (AWS.Obj (py "screenshots"))
                   (snd (main_setup browser_no_credentials world0))))).
  - reflexivity.
  - reflexivity.
Defined.

(** * Further properties of the script *)

(** ** Missing variables *)

(** X1.  Without [EMAIL], or with [EMAIL] but without [PASSWORD], the
    script ends at once with [KeyError] on the missing name, raised while
    the [KeyError] of the lookup of the encoded name was handled: no
    browser is started and the world is as it was. *)
Theorem main_missing_variable browser w :
  environ w !! py "EMAIL" = None ∨ environ w !! py "PASSWORD" = None →
  main browser w
  = (Raise (Exc KeyError
              (ArgStr match environ w !! py "EMAIL" with
                      | None => py "EMAIL"
                      | Some _ => py "PASSWORD"
                      end)
              (Some (Exc KeyError
                       (ArgBytes match environ w !! py "EMAIL" with
                                 | None => py "EMAIL"
                                 | Some _ => py "PASSWORD"
                                 end) None))), w)
  ∧ exit_status (fst (main browser w)) = 1.
Proof.
  intros Hmissing.
  unfold main, main_setup, mbind, M_bind, bind, getenv.
  destruct (environ w !! py "EMAIL") as [email|]; [|done].
  destruct Hmissing as [?| ->]; done.
Qed.

Lemma main_missing_variable_example :
  main browser_lab_stopped
    (World [] ∅ ∅ (<[py "EMAIL" := py "student@example.org"]> ∅) 0)
  = (Raise (Exc KeyError (ArgStr (py "PASSWORD"))
              (Some (Exc KeyError (ArgBytes (py "PASSWORD")) None))),
     World [] ∅ ∅ (<[py "EMAIL" := py "student@example.org"]> ∅) 0)
  ∧ exit_status
      (fst (main browser_lab_stopped
              (World [] ∅ ∅ (<[py "EMAIL" := py "student@example.org"]> ∅) 0)))
    = 1.
Proof.
  exact (main_missing_variable browser_lab_stopped
           (World [] ∅ ∅ (<[py "EMAIL" := py "student@example.org"]> ∅) 0)
           (or_intror eq_refl)).
Defined.

(** ** From the text of the page to the lines of the file *)

(** The tokens of [s.split()] are made of characters of [s]. *)
Lemma split_ws_from_chars (P : N → Prop) cur s :
  Forall P cur → Forall P s → Forall (Forall P) (split_ws_from cur s).
Proof.
  revert cur. induction s as [|c s IH]; intros cur Hcur Hs; simpl.
  - destruct cur as [|d cur]; [constructor|].
    constructor; [by apply Forall_rev|constructor].
  - apply Forall_cons in Hs as [Hc Hs]. destruct (is_space c).
    + destruct cur as [|d cur]; [by apply IH|].
      constructor; [by apply Forall_rev|by apply IH].
    + apply IH; [by constructor|done].
Qed.

(** So are the values [get_secrets] returns. *)
Lemma get_secrets_values_chars (P : N → Prop) raw w a b c :
  Forall P raw →
  fst (AWS.get_secrets raw w) = Ok (a, b, c) →
  Forall P a ∧ Forall P b ∧ Forall P c.
Proof.
  intros Hraw Hok.
  pose proof (split_ws_from_chars P [] raw (Forall_nil_2 _) Hraw) as Htokens.
  rewrite Forall_lookup in Htokens.
  destruct (get_secrets_cases raw w)
    as [E|(t1 & t2 & t3 & a' & b' & c' & H1 & Ha & H2 & Hb & H3 & Hc & E)];
    rewrite E in Hok; [done|]. injection Hok as -> -> ->.
  apply Htokens in H1, H2, H3.
  apply split_all_second_inv in Ha as (k1 & r1 & -> & _).
  apply split_all_second_inv in Hb as (k2 & r2 & -> & _).
  apply split_once_second_inv in Hc as (k3 & -> & _).
  revert H1 H2 H3. rewrite !Forall_app, !Forall_cons, !Forall_app.
  by intros (_ & _ & ? & _) (_ & _ & ? & _) (_ & _ & ?).
Qed.

(** X2.  Whatever triple [get_secrets] returns, its three lines have no
    whitespace inside and read back as three lines: the parser cannot hand
    over a value that breaks the format of the file.  And when the text it
    parsed can be encoded and [creds.txt] is not a directory,
    [set_github_env] returns and has appended exactly these three lines. *)
Theorem parsed_triple_is_written_as_three_lines raw w0 a s t w :
  fst (AWS.get_secrets raw w0) = Ok (a, s, t) →
  lines_of (unlines (env_lines a s t)) = env_lines a s t
  ∧ Forall no_space (env_lines a s t)
  ∧ (encodable_text raw → py "creds.txt" ∉ dirs w →
     fst (set_github_env a s t w) = Ok ()
     ∧ creds (snd (set_github_env a s t w))
       = creds w ++ unlines (env_lines a s t)).
Proof.
  intros Hok.
  pose proof (get_secrets_values_one_line _ _ _ _ _ Hok) as (Ha & Hs & Ht).
  split; [by apply lines_of_unlines, env_lines_one_line_each|].
  split.
  - destruct (get_secrets_cases raw w0)
      as [E|(t1 & t2 & t3 & a' & b' & c' & H1 & Ha' & H2 & Hb' & H3 & Hc' & E)];
      rewrite E in Hok; [done|]. injection Hok as -> -> ->.
    apply split_all_second_inv in Ha' as (k1 & r1 & -> & _).
    apply split_all_second_inv in Hb' as (k2 & r2 & -> & _).
    apply split_once_second_inv in Hc' as (k3 & -> & _).
    apply split_ws_tokens in H1 as [_ H1].
    apply split_ws_tokens in H2 as [_ H2].
    apply split_ws_tokens in H3 as [_ H3]. rewrite <- (app_nil_r t) in H3.
    apply no_space_middle in H1, H2, H3.
    unfold env_lines.
    apply Forall_cons_2;
      [|apply Forall_cons_2; [|apply Forall_cons_2; [|apply Forall_nil_2]]];
      (apply Forall_app; split; [|done]);
      apply (bool_decide_unpack _); by vm_compute.
  - intros Hraw Hdir.
    destruct (get_secrets_values_chars _ _ _ _ _ _ Hraw Hok) as (? & ? & ?).
    rewrite set_github_env_returns by done.
    split; [done|apply content_written].
Qed.

Lemma parsed_triple_is_written_as_three_lines_example :
  lines_of
    (unlines (env_lines (py "AKIA123") (py "SECRET456") (py "TOK=EN=789")))
  = env_lines (py "AKIA123") (py "SECRET456") (py "TOK=EN=789")
  ∧ Forall no_space
      (env_lines (py "AKIA123") (py "SECRET456") (py "TOK=EN=789"))
  ∧ fst (set_github_env (py "AKIA123") (py "SECRET456") (py "TOK=EN=789")
           world0) = Ok ()
  ∧ creds (snd (set_github_env (py "AKIA123") (py "SECRET456")
                  (py "TOK=EN=789") world0))
    = creds world0
      ++ unlines (env_lines (py "AKIA123") (py "SECRET456") (py "TOK=EN=789")).
Proof.
  destruct (parsed_triple_is_written_as_three_lines
              (py "info aws_access_key_id=AKIA123 aws_secret_access_key=SECRET456 aws_session_token=TOK=EN=789")
              world0 (py "AKIA123") (py "SECRET456") (py "TOK=EN=789") world0
              eq_refl) as (Hlines & Hspace & Hwrite).
  split; [exact Hlines|]. split; [exact Hspace|]. apply Hwrite.
  - apply encodable_text_forallb. reflexivity.
  - apply (bool_decide_unpack _). vm_compute. exact I.
Defined.

(** ** What a run leaves untouched *)

Section Keeps.
Context {A B X : Type} (f : world → X).

Lemma keeps_bind (m : M A) (k : A → M B) :
  keeps f m → (∀ a, keeps f (k a)) → keeps f (m ≫= k).
Proof.
  intros Hm Hk w. unfold mbind, M_bind, bind.
  specialize (Hm w). destruct (m w) as [[a|e] w1]; simpl in *; [|done].
  by rewrite Hk.
Qed.

Lemma keeps_try_except (m : M A) (handler : exn → M A) :
  keeps f m → (∀ e, keeps f (handler e)) → keeps f (try_except m handler).
Proof.
  intros Hm Hh w. unfold try_except.
  specialize (Hm w). destruct (m w) as [[a|e] w1]; simpl in *; [done|].
  specialize (Hh e w1). destruct (handler e w1) as [[a|e'] w2]; simpl in *;
    congruence.
Qed.

Lemma keeps_ret (a : A) : keeps f (ret a).
Proof. done. Qed.

Lemma keeps_raise e : keeps f (raise (A:=A) e).
Proof. done. Qed.

Lemma keeps_index (l : list A) i : keeps f (index l i).
Proof. intros w. rewrite index_lookup. by destruct (l !! i). Qed.

End Keeps.

(** A part [f] of the world that the log does not touch, and that a stored
    screenshot does not touch when its path is [safe]. *)
Section KeepsRules.
Context {X : Type} (f : world → X) (safe : list N → Prop).
Hypothesis f_emit : ∀ ev w, f (emit ev w) = f w.
Hypothesis f_saved :
  ∀ path o w, safe path → f (saved (Screenshot path) o w) = f w.

Lemma keeps_page_call browser c :
  stores_at safe c → keeps f (page_call browser c).
Proof using f_emit f_saved.
  intros Hsafe w. unfold page_call.
  assert (f (saved c (browser (trace w) c) w) = f w) as E.
  { destruct c; try reflexivity. by apply f_saved. }
  destruct (browser (trace w) c); cbn [snd]; by rewrite f_emit.
Qed.

Lemma keeps_logging_info msg : keeps f (logging_info msg).
Proof using f_emit. intros w. apply f_emit. Qed.

Lemma keeps_logging_error msg : keeps f (logging_error msg).
Proof using f_emit. intros w. apply f_emit. Qed.

Lemma keeps_getenv name : keeps f (getenv name).
Proof. intros w. unfold getenv. by destruct (environ w !! name). Qed.


End KeepsRules.

(** The constructor and [configure_aws] act on the browser and on the log,
    and store their screenshots right below [screenshots]. *)
Section BrowserOnly.
Context {X : Type} (f : world → X) (safe : list N → Prop) (browser : oracle).
Hypothesis f_emit : ∀ ev w, f (emit ev w) = f w.
Hypothesis f_saved :
  ∀ path o w, safe path → f (saved (Screenshot path) o w) = f w.
Hypothesis safe_screenshots :
  ∀ name, SLASH ∉ name → safe (py "screenshots" ++ SLASH :: name).

Ltac keeps_call :=
  apply (keeps_page_call f safe f_emit f_saved);
  lazymatch goal with
  | |- stores_at _ (Screenshot (_ ++ ?name)) =>
      let name' := eval vm_compute in (tail name) in
      change (safe (py "screenshots" ++ SLASH :: name'));
      apply safe_screenshots, (bool_decide_unpack _); vm_compute; exact I
  | |- _ => exact I
  end.

Lemma main_setup_keeps : keeps f (main_setup browser).
Proof using f_emit f_saved safe_screenshots.
  unfold main_setup, AWS.__init__, AWS._login.
  cbv zeta.
  repeat first
    [ apply keeps_bind; [|intros ?] | apply keeps_try_except; [|intros ?]
    | keeps_call
    | apply keeps_logging_info; exact f_emit
    | apply keeps_logging_error; exact f_emit
    | apply keeps_getenv | apply keeps_ret | apply keeps_raise ].
Qed.

Lemma configure_aws_keeps conta :
  keeps f (AWS.configure_aws browser (AWS.Obj (py "screenshots")) conta).
Proof using f_emit f_saved safe_screenshots.
  unfold AWS.configure_aws. cbv zeta.
  repeat first
    [ apply keeps_bind; [|intros ?]
    | keeps_call
    | apply keeps_logging_info; exact f_emit
    | apply keeps_ret | apply keeps_raise
    | match goal with |- keeps _ (match ?x with _ => _ end) => destruct x end ].
Qed.

End BrowserOnly.

(** The directories above a path are beginnings of the path. *)
Lemma parents_from_prefix cur path p :
  p ∈ parents_from cur path → ∃ post, rev cur ++ path = p ++ post.
Proof.
  revert cur. induction path as [|c path IH]; intros cur; simpl;
    [by intros ?%elem_of_nil|].
  assert (p ∈ parents_from (c :: cur) path →
          ∃ post, rev cur ++ c :: path = p ++ post) as Hrec.
  { intros [post E]%IH. exists post. rewrite <- E. simpl.
    by rewrite <- app_assoc. }
  destruct (c =? SLASH); [|exact Hrec].
  destruct cur as [|d cur]; [exact Hrec|].
  intros [->|Hin]%elem_of_cons; [by eexists|by apply Hrec].
Qed.

Lemma parents_from_no_slash cur name :
  SLASH ∉ name → parents_from cur name = [].
Proof.
  revert cur. induction name as [|c name IH]; intros cur Hname; [done|].
  apply not_elem_of_cons in Hname as [Hc Hname]. simpl.
  destruct (N.eqb_spec c SLASH) as [->|_]; [done|by apply IH].
Qed.

(** A stored screenshot leaves alone every name its path does not begin
    with. *)
Lemma saved_elsewhere p path o w :
  starts_with p path = false →
  files (saved (Screenshot path) o w) !! p = files w !! p
  ∧ (p ∈ dirs (saved (Screenshot path) o w) ↔ p ∈ dirs w).
Proof.
  intros Hp. destruct o as [image|e]; [|done].
  cbn [saved files dirs set_dirs set_files]. split.
  - apply lookup_insert_ne. intros ->.
    rewrite (proj2 (starts_with_spec p p)) in Hp; [done|].
    exists []. by rewrite app_nil_r.
  - rewrite elem_of_union, elem_of_list_to_set.
    split; [intros [Hin|?]; [|done]|by right].
    apply parents_from_prefix in Hin as [post E]. simpl in E.
    rewrite (proj2 (starts_with_spec p path)) in Hp; [done|by exists post].
Qed.

Lemma creds_state_saved path o w :
  starts_with (py "creds.txt") path = false →
  creds_state (saved (Screenshot path) o w) = creds_state w.
Proof.
  intros [Hf Hd]%(saved_elsewhere _ _ o w). unfold creds_state.
  rewrite Hf. f_equal. by apply bool_decide_ext.
Qed.

Lemma creds_state_eq w w' :
  creds_state w' = creds_state w →
  creds w' = creds w ∧ (py "creds.txt" ∈ dirs w' ↔ py "creds.txt" ∈ dirs w).
Proof.
  unfold creds_state, creds, content. intros [= Hf Hd].
  split; [by rewrite Hf|].
  split; intros H%(bool_decide_eq_true_2 _);
    [rewrite Hd in H|rewrite <- Hd in H]; by apply bool_decide_eq_true_1 in H.
Qed.

(** What there is at [creds.txt] is as it was after the constructor, after
    [configure_aws] and after the [except] suite. *)
Lemma main_setup_keeps_creds browser : keeps creds_state (main_setup browser).
Proof.
  exact (main_setup_keeps creds_state
           (λ path, starts_with (py "creds.txt") path = false) browser
           (λ _ _, eq_refl) creds_state_saved (λ _ _, eq_refl)).
Qed.

Lemma configure_aws_keeps_creds browser conta :
  keeps creds_state
    (AWS.configure_aws browser (AWS.Obj (py "screenshots")) conta).
Proof.
  exact (configure_aws_keeps creds_state
           (λ path, starts_with (py "creds.txt") path = false) browser
           (λ _ _, eq_refl) creds_state_saved (λ _ _, eq_refl) conta).
Qed.


(** The constructor returns the object whose screenshots go to
    [screenshots]. *)
Lemma main_setup_object browser w aws w1 :
  main_setup browser w = (Ok aws, w1) → aws = AWS.Obj (py "screenshots").
Proof.
  intros E.
  assert (traces (λ r _, ∀ aws, r = Ok aws → aws = AWS.Obj (py "screenshots"))
            (main_setup browser)) as H.
  { unfold main_setup, AWS.__init__, AWS._login. traces_all.
    all: by intros aws' [= <-]. }
  destruct (H w) as (new & _ & Hobj). rewrite E in Hobj. by apply Hobj.
Qed.

(** The script ends in the constructor, or goes on to the [try] statement. *)
Lemma main_run browser w :
  (∃ e, main_setup browser w = (Raise e, snd (main_setup browser w))
        ∧ main browser w = (Raise e, snd (main_setup browser w)))
  ∨ (∃ w1, main_setup browser w = (Ok (AWS.Obj (py "screenshots")), w1)
           ∧ main browser w
             = try_except (main_try browser (AWS.Obj (py "screenshots")))
                 (main_except browser) w1).
Proof.
  destruct (main_setup browser w) as [[aws|e] w1] eqn:E.
  - right. pose proof (main_setup_object _ _ _ _ E) as ->. exists w1.
    split; [done|]. unfold main, mbind, M_bind, bind. by rewrite E.
  - left. exists e.
    split; [done|]. unfold main, mbind, M_bind, bind. by rewrite E.
Qed.

(** The [except] suite always ends by raising. *)
Lemma main_except_raises browser error w :
  ∃ e, fst (main_except browser error w) = Raise e.
Proof.
  unfold main_except, mbind, M_bind, bind, makedirs, time_now, page_call,
    logging_info, raise.
  cbv zeta. destruct (browser _ _); by eexists.
Qed.

(** The [try] statement returns when its suite does, and else raises what
    the [except] suite raises, with the exception of the suite as context. *)
Lemma main_try_except browser aws w1 :
  (∃ w2, main_try browser aws w1 = (Ok (), w2)
         ∧ try_except (main_try browser aws) (main_except browser) w1
           = (Ok (), w2))
  ∨ (∃ e2 w2 e',
       main_try browser aws w1 = (Raise e2, w2)
       ∧ try_except (main_try browser aws) (main_except browser) w1
         = (Raise (with_context e' e2), snd (main_except browser e2 w2))).
Proof.
  unfold try_except.
  destruct (main_try browser aws w1) as [[[]|e2] w2].
  - left. by exists w2.
  - right. destruct (main_except_raises browser e2 w2) as [e' He'].
    exists e2, w2, e'.
    destruct (main_except browser e2 w2) as [[u|e3] w3]; cbn [fst snd] in *;
      [done|]. by injection He' as ->.
Qed.

(** The [try] suite returns only by way of a page text on which
    [get_secrets] succeeds, and after [set_github_env]; when it raises
    before that, the world is as [configure_aws] left it. *)
Lemma main_try_cases browser aws w :
  (∃ e, fst (main_try browser aws w) = Raise e
        ∧ snd (main_try browser aws w)
          = snd (AWS.configure_aws browser aws (py "130670") w))
  ∨ (∃ raw a s t w',
       AWS.configure_aws browser aws (py "130670") w = (Ok (Some raw), w')
       ∧ AWS.get_secrets raw w' = (Ok (a, s, t), collected w')
       ∧ main_try browser aws w = set_github_env a s t (collected w')).
Proof.
  unfold main_try, mbind, M_bind, bind. cbv zeta.
  destruct (AWS.configure_aws browser aws (py "130670") w)
    as [[[raw|]|e] w'] eqn:Econf; cbn [fst snd] in *.
  - destruct (get_secrets_cases raw w')
      as [E|(t1 & t2 & t3 & a & b & c & _ & _ & _ & _ & _ & _ & E)];
      rewrite E.
    + left. by eexists.
    + right. by exists raw, a, b, c, w'.
  - left. by eexists.
  - left. by eexists.
Qed.





(** In the second of these runs one line has reached the file. *)
Lemma main_unencodable_secret_partial_write :
  (∃ e0, fst (main browser_unencodable_secret world0)
         = Raise (Exc Exception_ (ArgExn e0) (Some e0))
         ∧ exn_kind_of e0 = UnicodeEncodeError)
  ∧ creds (snd (main browser_unencodable_secret world0))
    = py "AWS_ACCESS_KEY_ID=AKIA123" ++ [LF].
Proof.
  split; [|reflexivity].
  exists (new_exn UnicodeEncodeError "surrogates not allowed").
  split; reflexivity.
Qed.

(** ** What a successful run is *)

(** [configure_aws] returns only after every call returned, and what it
    returns is what [text_content] returned. *)
Lemma configure_aws_returned browser self conta :
  traces (λ r new,
            ∀ v, r = Ok v →
                 ∃ steps v1 v2 v3 v4,
                   new = steps
                         ++ [Logging INFO
                               (py "[*] Coletando informa" ++ [231; 245]
                                ++ py "es da AWS");
                             Browser (LocClick details_control) (Returns v1);
                             Browser (LocClick cli_control) (Returns v2);
                             Browser
                               (Screenshot
                                  (AWS.screenshots self
                                   ++ py "/6-show_aws_credentials.png"))
                               (Returns v3);
                             Browser
                               (LocWaitFor text_locator (Some (py "attached"))
                                  0)
                               (Returns v4);
                             Browser (LocTextContent text_locator) (Returns v)]
                   ∧ Forall (λ ev, is_raised ev = false) new)
    (AWS.configure_aws browser self conta).
Proof.
  unfold AWS.configure_aws. traces_all.
  all: intros v' [=]; subst.
  all: lazymatch goal with
       | |- ∃ _ _ _ _ _, ?L = _ ∧ _ => exists (take (length L - 6) L)
       end.
  all: eexists _, _, _, _; split; [reflexivity|by repeat constructor].
Qed.

(** X4.  When [configure_aws] returns, no call of its run has raised; it
    has clicked the two controls that reveal the credentials, in order,
    taken the screenshot and waited for the text element; and what it
    returns is, as it is, what [text_content] returned last. *)
Theorem configure_aws_returns_page_text browser self conta w v :
  fst (AWS.configure_aws browser self conta w) = Ok v →
  ∃ steps v1 v2 v3 v4,
    trace (snd (AWS.configure_aws browser self conta w))
    = trace w ++ steps
      ++ [Logging INFO
            (py "[*] Coletando informa" ++ [231; 245] ++ py "es da AWS");
          Browser (LocClick details_control) (Returns v1);
          Browser (LocClick cli_control) (Returns v2);
          Browser
            (Screenshot
               (AWS.screenshots self ++ py "/6-show_aws_credentials.png"))
            (Returns v3);
          Browser (LocWaitFor text_locator (Some (py "attached")) 0)
            (Returns v4);
          Browser (LocTextContent text_locator) (Returns v)]
    ∧ Forall (λ ev, is_raised ev = false) steps.
Proof.
  intros Hok.
  destruct (configure_aws_returned browser self conta w) as (new & E & H).
  destruct (H v Hok) as (steps & v1 & v2 & v3 & v4 & -> & Hnew).
  exists steps, v1, v2, v3, v4. split; [done|].
  by apply Forall_app in Hnew as [? _].
Qed.

Lemma configure_aws_returns_page_text_example :
  ∃ steps v1 v2 v3 v4,
    trace (snd (AWS.configure_aws browser_lab_stopped
                  (AWS.Obj (py "screenshots")) (py "130670") world0))
    = trace world0 ++ steps
      ++ [Logging INFO
            (py "[*] Coletando informa" ++ [231; 245] ++ py "es da AWS");
          Browser (LocClick details_control) (Returns v1);
          Browser (LocClick cli_control) (Returns v2);
          Browser (Screenshot (py "screenshots/6-show_aws_credentials.png"))
            (Returns v3);
          Browser (LocWaitFor text_locator (Some (py "attached")) 0)
            (Returns v4);
          Browser (LocTextContent text_locator)
            (Returns
               (Some (py "[default] aws_access_key_id=AKIA123 aws_secret_access_key=SECRET456 aws_session_token=TOK=EN=789")))]
    ∧ Forall (λ ev, is_raised ev = false) steps.
Proof.
  apply (configure_aws_returns_page_text browser_lab_stopped
           (AWS.Obj (py "screenshots")) (py "130670") world0).
  reflexivity.
Defined.

(** When [set_github_env] returns, [creds.txt] was not a directory, the
    three values could be encoded and the three lines are in the file. *)
Lemma set_github_env_returned a s t w w2 :
  set_github_env a s t w = (Ok (), w2) →
  (py "creds.txt" ∉ dirs w)
  ∧ w2 = set_files
           (<[py "creds.txt" := creds w ++ unlines (env_lines a s t)]>
              (files w)) w.
Proof.
  intros E.
  destruct (decide (py "creds.txt" ∈ dirs w)) as [Hdir|Hdir];
    [by rewrite set_github_env_directory in E|].
  split; [done|]. rewrite set_github_env_run in E by done.
  unfold written_lines in E.
  destruct (forallb encodable a), (forallb encodable s),
    (forallb encodable t); try discriminate E.
  by injection E as <-.
Qed.

(** X5.  A run of the script that ends normally has read a text from the
    page on which [get_secrets] succeeds, and has appended the three lines
    of the triple parsed from it to [creds.txt]; apart from [creds.txt] it
    has changed files below [screenshots] only, and made no directory
    other than [screenshots]; the exit status is 0. *)
Theorem main_success_appends_parsed_triple browser w u :
  fst (main browser w) = Ok u →
  ∃ raw a s t w',
    Browser (LocTextContent text_locator) (Returns (Some raw))
    ∈ trace (snd (main browser w))
    ∧ AWS.get_secrets raw w' = (Ok (a, s, t), collected w')
    ∧ creds (snd (main browser w)) = creds w ++ unlines (env_lines a s t)
    ∧ lines_of (unlines (env_lines a s t)) = env_lines a s t
    ∧ (∀ p, p ≠ py "creds.txt" → starts_with (py "screenshots/") p = false →
            files (snd (main browser w)) !! p = files w !! p)
    ∧ {[py "screenshots"]} ∪ dirs (snd (main browser w))
      = {[py "screenshots"]} ∪ dirs w
    ∧ exit_status (fst (main browser w)) = 0.
Proof.
  intros Hok. rewrite Hok.
  destruct (main_run browser w) as [(e0 & _ & Emain)|(w1 & E1 & Emain)];
    [by rewrite Emain in Hok|].
  destruct (main_try_except browser (AWS.Obj (py "screenshots")) w1)
    as [(w2 & Etry & Eexcept)|(e2 & w2 & e' & _ & Eexcept)];
    rewrite Emain, Eexcept in Hok |- *; [clear Hok|done].
  destruct (main_try_cases browser (AWS.Obj (py "screenshots")) w1)
    as [(e1 & Hraise & _)|(raw & a & s & t & w' & Econf & Eparse & Eenv)];
    [by rewrite Etry in Hraise|].
  rewrite Etry in Eenv. symmetry in Eenv.
  apply set_github_env_returned in Eenv as [Hdir ->].
  exists raw, a, s, t, w'. cbn [snd].
  split; [|split; [exact Eparse|split; [|split; [|split; [|split; [|done]]]]]].
  - destruct (configure_aws_returned browser (AWS.Obj (py "screenshots"))
                (py "130670") w1) as (new & Etrace & Hnew).
    rewrite Econf in Etrace, Hnew. cbn [fst snd] in *.
    destruct (Hnew _ eq_refl) as (steps & v1 & v2 & v3 & v4 & -> & _).
    cbn [trace set_files collected emit]. rewrite Etrace.
    rewrite !elem_of_app. left. right. right.
    apply (list_elem_of_lookup_2 _ 5). reflexivity.
  - pose proof (main_setup_keeps_creds browser w) as H1.
    pose proof (configure_aws_keeps_creds browser (py "130670") w1) as H2.
    rewrite E1 in H1. rewrite Econf in H2. cbn [snd] in *.
    unfold creds at 1. rewrite content_written. f_equal.
    assert (creds_state (collected w') = creds_state w) as [-> _]%creds_state_eq
      by (by rewrite <- H1, <- H2).
    done.
  - apply lines_of_unlines.
    pose proof (get_secrets_values_one_line raw w' a s t) as Hline.
    rewrite Eparse in Hline. destruct (Hline eq_refl) as (? & ? & ?).
    by apply env_lines_one_line_each.
  - intros p Hp Hscreens.
    assert (∀ name, SLASH ∉ name → py "screenshots" ++ SLASH :: name ≠ p)
      as Hsafe by (intros name _ <-; by vm_compute in Hscreens).
    assert (∀ path o w0, path ≠ p →
              files (saved (Screenshot path) o w0) !! p = files w0 !! p)
      as Hsaved.
    { intros path [image|e] w0 Hne; [|done].
      cbn [saved files set_dirs set_files]. by apply lookup_insert_ne. }
    pose proof (main_setup_keeps (λ w0, files w0 !! p) (λ path, path ≠ p)
                  browser (λ _ _, eq_refl) Hsaved Hsafe w) as H1.
    pose proof (configure_aws_keeps (λ w0, files w0 !! p) (λ path, path ≠ p)
                  browser (λ _ _, eq_refl) Hsaved Hsafe (py "130670") w1)
      as H2.
    rewrite E1 in H1. rewrite Econf in H2. cbn [snd] in *.
    cbn [files set_files]. rewrite lookup_insert_ne by done.
    cbn [files collected emit]. by rewrite H2, H1.
  - assert (∀ name, SLASH ∉ name →
              parents (py "screenshots" ++ SLASH :: name) = [py "screenshots"])
      as Hsafe.
    { intros name Hname. unfold parents.
      change (parents_from [] (py "screenshots" ++ SLASH :: name))
        with (py "screenshots"
              :: parents_from (SLASH :: rev (py "screenshots")) name).
      by rewrite parents_from_no_slash. }
    assert (∀ path o w0, parents path = [py "screenshots"] →
              {[py "screenshots"]} ∪ dirs (saved (Screenshot path) o w0)
              = {[py "screenshots"]} ∪ dirs w0) as Hsaved.
    { intros path [image|e] w0 Hpath; [|done].
      cbn [saved dirs set_dirs set_files]. rewrite Hpath.
      apply set_eq. intros d.
      rewrite !elem_of_union, elem_of_list_to_set, list_elem_of_singleton,
        elem_of_singleton.
      tauto. }
    pose proof (main_setup_keeps (λ w0, {[py "screenshots"]} ∪ dirs w0)
                  (λ path, parents path = [py "screenshots"])
                  browser (λ _ _, eq_refl) Hsaved Hsafe w) as H1.
    pose proof (configure_aws_keeps (λ w0, {[py "screenshots"]} ∪ dirs w0)
                  (λ path, parents path = [py "screenshots"])
                  browser (λ _ _, eq_refl) Hsaved Hsafe (py "130670") w1)
      as H2.
    rewrite E1 in H1. rewrite Econf in H2. cbn [snd] in *.
    cbn [dirs set_files collected emit]. by rewrite H2, H1.
Qed.

Lemma main_success_appends_parsed_triple_example :
  ∃ raw a s t w',
    Browser (LocTextContent text_locator) (Returns (Some raw))
    ∈ trace (snd (main browser_lab_stopped world0))
    ∧ AWS.get_secrets raw w' = (Ok (a, s, t), collected w')
    ∧ creds (snd (main browser_lab_stopped world0))
      = creds world0 ++ unlines (env_lines a s t)
    ∧ lines_of (unlines (env_lines a s t)) = env_lines a s t
    ∧ (∀ p, p ≠ py "creds.txt" → starts_with (py "screenshots/") p = false →
            files (snd (main browser_lab_stopped world0)) !! p
            = files world0 !! p)
    ∧ {[py "screenshots"]} ∪ dirs (snd (main browser_lab_stopped world0))
      = {[py "screenshots"]} ∪ dirs world0
    ∧ exit_status (fst (main browser_lab_stopped world0)) = 0.
Proof.
  apply (main_success_appends_parsed_triple browser_lab_stopped world0 ()).
  reflexivity.
Defined.

(** ** What the script never lets out *)

(** X6.  Whatever the browser does and whatever the variables and the page
    hold, every message the script logs is one of its nine fixed texts or
    the path of the screenshot of the entry point: neither the e-mail, nor
    the password, nor the text of the page, nor a credential is logged. *)
Theorem main_logs_known_messages browser w :
  ∃ new, trace (snd (main browser w)) = trace w ++ new
         ∧ Forall logs_known_message new.
Proof.
  assert (emits logs_known_message (main browser)) as H; [|exact (H w)].
  unfold main, main_setup, main_try, main_except, AWS.__init__, AWS._login,
    AWS.configure_aws, AWS.get_secrets, set_github_env.
  cbv zeta. repeat emits_step.
  all: first
    [ exact I
    | left; apply (bool_decide_unpack _); vm_compute; exact I
    | right; eexists; reflexivity ].
Qed.

(** X7.  In a run of the script, what is typed into the page is the value
    of [EMAIL], into the field of the user name, and the value of
    [PASSWORD], into the field of the password, and nothing else. *)
Theorem main_fills_as_intended browser w email password :
  environ w !! py "EMAIL" = Some email →
  environ w !! py "PASSWORD" = Some password →
  ∃ new, trace (snd (main browser w)) = trace w ++ new
         ∧ Forall (fills_as_intended email password) new.
Proof.
  intros Hemail Hpassword.
  assert (main browser w
          = (AWS.__init__ browser email password true
             ≫= λ aws, try_except (main_try browser aws) (main_except browser))
              w) as ->.
  { unfold main, main_setup, mbind, M_bind, bind, getenv.
    by rewrite Hemail, Hpassword. }
  revert w Hemail Hpassword.
  assert (emits (fills_as_intended email password)
            (AWS.__init__ browser email password true
             ≫= λ aws, try_except (main_try browser aws) (main_except browser)))
    as H; [|intros w _ _; exact (H w)].
  unfold main_try, main_except, AWS.__init__, AWS._login,
    AWS.configure_aws, AWS.get_secrets, set_github_env.
  cbv zeta. repeat emits_step.
  all: first [ exact I | left; by split | right; by split ].
Qed.

Lemma main_fills_as_intended_example :
  ∃ new, trace (snd (main browser_lab_stopped world0)) = trace world0 ++ new
         ∧ Forall (fills_as_intended (py "student@example.org") (py "hunter2"))
             new.
Proof.
  apply (main_fills_as_intended browser_lab_stopped world0).
  - reflexivity.
  - reflexivity.
Defined.

(** ** The order of the steps *)

(** X8.  In a run of [configure_aws], the control that reveals the
    credentials is clicked only when the lab is known to run: the class of
    the status indicator was read, and either it contained [led-green] or
    the wait for the indicator to turn green has returned. *)
Theorem reveal_only_when_active browser self conta w new o :
  trace (snd (AWS.configure_aws browser self conta w)) = trace w ++ new →
  Browser (LocClick details_control) o ∈ new →
  ∃ classe,
    status_read (Some classe) ∈ new
    ∧ (contains (py "led-green") classe = true
       ∨ ∃ v, Browser (LocWaitFor active_indicator None 0) (Returns v) ∈ new).
Proof.
  intros Htrace. revert o. pattern new.
  match goal with |- ?Q _ => set (post := λ _ : res (option (list N)), Q) end.
  change (post (fst (AWS.configure_aws browser self conta w)) new).
  apply (traces_run post (AWS.configure_aws browser self conta));
    [|exact Htrace].
  clear. unfold AWS.configure_aws. traces_all.
  all: intros o' Hclick.
  all: apply (of_kind_filter is_details_click) in Hclick; [|reflexivity].
  all: try (by apply elem_of_nil in Hclick).
  all: clear Hclick; eexists; split;
       [apply (list_elem_of_lookup_2 _ 6); reflexivity|].
  all: first [ left; assumption
             | right; eexists; apply (list_elem_of_lookup_2 _ 10); reflexivity ].
Qed.

Lemma reveal_only_when_active_example :
  ∃ classe,
    status_read (Some classe)
    ∈ trace (snd (AWS.configure_aws browser_lab_stopped
                    (AWS.Obj (py "screenshots")) (py "130670") world0))
    ∧ (contains (py "led-green") classe = true
       ∨ ∃ v, Browser (LocWaitFor active_indicator None 0) (Returns v)
              ∈ trace (snd (AWS.configure_aws browser_lab_stopped
                              (AWS.Obj (py "screenshots")) (py "130670")
                              world0))).
Proof.
  apply (reveal_only_when_active browser_lab_stopped
           (AWS.Obj (py "screenshots")) (py "130670") world0 _ (Returns None)).
  - reflexivity.
  - apply (list_elem_of_lookup_2 _ 12). reflexivity.
Defined.

Lemma screenshot_event_inv (dir p q : list N) o o' :
  Browser (Screenshot (dir ++ p)) o = Browser (Screenshot (dir ++ q)) o' →
  p = q ∧ o = o'.
Proof. intros [= Hp ->]. by apply app_inv_head in Hp. Qed.

(** X9.  When the login has reached the success URL but the screenshot
    that follows cannot be taken, [_login] treats it as a failed login: it
    logs the login error, asks for the screenshot [3-login_error.png], and
    raises, with the failure of the screenshot as context, the exception
    "Login falhou! ..." (when this last screenshot is taken). *)
Theorem login_confirmation_failure browser self email password w new e :
  trace (snd (AWS._login browser self email password w)) = trace w ++ new →
  Browser (Screenshot (AWS.screenshots self ++ py "/3-conclude_login.png"))
    (Raises e) ∈ new →
  ∃ steps v o e',
    new = steps
          ++ [Browser login_wait (Returns v);
              Logging INFO (py "[+] Login conclu" ++ [237] ++ py "do com sucesso");
              Browser
                (Screenshot (AWS.screenshots self ++ py "/3-conclude_login.png"))
                (Raises e);
              login_failed_log;
              Browser
                (Screenshot (AWS.screenshots self ++ py "/3-login_error.png")) o]
    ∧ fst (AWS._login browser self email password w) = Raise e'
    ∧ exn_context e' = Some e
    ∧ (∀ v', o = Returns v' → e' = Exc Exception_ login_failed (Some e)).
Proof.
  intros Htrace. revert e. pattern (fst (AWS._login browser self email password w)), new.
  match goal with |- ?Q _ _ => set (post := Q) end.
  apply (traces_run post (AWS._login browser self email password));
    [|exact Htrace].
  clear. unfold AWS._login. traces_all.
  all: intros e' Hin.
  all: apply (of_kind_filter is_failed_screenshot) in Hin; [|reflexivity];
       cbn [List.filter is_failed_screenshot] in Hin.
  all: try (by apply elem_of_nil in Hin).
  all: repeat (apply elem_of_cons in Hin as [Hin|Hin];
               [apply screenshot_event_inv in Hin as [Hp Ho];
                try (vm_compute in Hp; discriminate Hp)|]);
       try (by apply elem_of_nil in Hin).
  all: injection Ho as ->.
  all: lazymatch goal with
       | |- ∃ _ _ _ _, ?L = _ ∧ _ => exists (take (length L - 5) L)
       end.
  all: eexists _, _, _; split; [reflexivity|]; split; [reflexivity|].
  - split; [reflexivity|]. intros ? _. reflexivity.
  - split; [by destruct e0|]. intros ? [=].
Qed.

Lemma login_confirmation_failure_example :
  ∃ steps v o e',
    trace (snd (AWS._login browser_confirmation_fails
                  (AWS.Obj (py "screenshots")) (py "student@example.org")
                  (py "hunter2") world0))
    = steps
      ++ [Browser login_wait (Returns v);
          Logging INFO (py "[+] Login conclu" ++ [237] ++ py "do com sucesso");
          Browser (Screenshot (py "screenshots/3-conclude_login.png"))
            (Raises (new_exn PlaywrightError "Target page has been closed"));
          login_failed_log;
          Browser (Screenshot (py "screenshots/3-login_error.png")) o]
    ∧ fst (AWS._login browser_confirmation_fails (AWS.Obj (py "screenshots"))
             (py "student@example.org") (py "hunter2") world0)
      = Raise e'
    ∧ exn_context e'
      = Some (new_exn PlaywrightError "Target page has been closed")
    ∧ (∀ v', o = Returns v' →
             e' = Exc Exception_ login_failed
                    (Some (new_exn PlaywrightError
                             "Target page has been closed"))).
Proof.
  apply (login_confirmation_failure browser_confirmation_fails
           (AWS.Obj (py "screenshots")) (py "student@example.org")
           (py "hunter2") world0).
  - reflexivity.
  - apply (list_elem_of_lookup_2 _ 10). reflexivity.
Defined.

(** ** A browser that cooperates *)

Lemma traces_page_call_answer (Q : res (option (list N)) → list event → Prop)
    browser c :
  (∀ h, Q (result_of (browser h c)) [Browser c (browser h c)]) →
  traces Q (page_call browser c).
Proof.
  intros H w. exists [Browser c (browser (trace w) c)]. unfold page_call.
  specialize (H (trace w)).
  destruct (browser (trace w) c); cbn [fst snd trace emit];
    by rewrite trace_saved.
Qed.

Lemma get_secrets_any_world s w w' r :
  fst (AWS.get_secrets s w) = Ok r → AWS.get_secrets s w' = (Ok r, collected w').
Proof.
  intros Hok.
  destruct (get_secrets_cases s w)
    as [E|(t1 & t2 & t3 & a & b & c & H1 & Ha & H2 & Hb & H3 & Hc & E)];
    rewrite E in Hok; [done|]. injection Hok as <-.
  by apply (get_secrets_returns _ _ t1 t2 t3).
Qed.

Section Cooperative.
Variables (browser : oracle) (raw : list N).
Hypothesis Hcoop : cooperative browser raw.

Ltac coop_step :=
  lazymatch goal with
  | |- traces _ (mbind _ _) => apply traces_bind
  | |- traces _ (try_except _ _) => apply traces_try_except
  | |- traces _ (page_call _ (LocGetAttribute ?l ?n)) =>
      apply traces_page_call_answer; let h := fresh "h" in intros h;
      destruct (proj1 (proj2 Hcoop) h l n) as [? ->]; cbn [result_of]
  | |- traces _ (page_call _ (LocTextContent ?l)) =>
      apply traces_page_call_answer; let h := fresh "h" in intros h;
      rewrite (proj2 (proj2 Hcoop) h l); cbn [result_of]
  | |- traces _ (page_call _ ?c) =>
      apply traces_page_call_answer; let h := fresh "h" in intros h;
      destruct (proj1 Hcoop h c) as [? ->]; cbn [result_of]
  | |- traces _ (logging_info _) => apply traces_logging_info
  | |- traces _ (ret _) => apply traces_ret
  | |- traces _ (if negb ?b then _ else _) => destruct b; cbn [negb]
  end.

Lemma init_returns email password :
  traces (λ r _, r = Ok (AWS.Obj (py "screenshots")))
    (AWS.__init__ browser email password true).
Proof using Hcoop.
  unfold AWS.__init__, AWS._login. cbv zeta.
  repeat (coop_step; cbv beta iota). all: reflexivity.
Qed.

Lemma configure_aws_returns_text self conta :
  traces (λ r _, r = Ok (Some raw)) (AWS.configure_aws browser self conta).
Proof using Hcoop.
  unfold AWS.configure_aws. cbv zeta.
  repeat (coop_step; cbv beta iota). all: reflexivity.
Qed.

End Cooperative.

(** X10.  In a browser in which every call returns, the status indicator
    has a class and the credential element shows a text that can be encoded
    and on which [get_secrets] succeeds, with the two variables set and
    [creds.txt] not a directory, the script ends normally, whether the lab
    was running or had to be started, and [creds.txt] has grown by the three
    lines of the parsed triple. *)
Theorem main_succeeds_in_cooperative_browser browser raw w email password a s t :
  cooperative browser raw →
  environ w !! py "EMAIL" = Some email →
  environ w !! py "PASSWORD" = Some password →
  fst (AWS.get_secrets raw w) = Ok (a, s, t) →
  encodable_text raw →
  py "creds.txt" ∉ dirs w →
  fst (main browser w) = Ok ()
  ∧ creds (snd (main browser w)) = creds w ++ unlines (env_lines a s t)
  ∧ exit_status (fst (main browser w)) = 0.
Proof.
  intros Hcoop Hemail Hpassword Hparse Hraw Hdir.
  destruct (get_secrets_values_chars _ _ _ _ _ _ Hraw Hparse) as (Ha & Hs & Ht).
  pose proof (main_setup_keeps_creds browser w) as H1.
  assert (main_setup browser w = AWS.__init__ browser email password true w)
    as Esetup.
  { unfold main_setup, mbind, M_bind, bind, getenv.
    by rewrite Hemail, Hpassword. }
  destruct (init_returns browser raw Hcoop email password w) as (_ & _ & Hinit).
  rewrite <- Esetup in Hinit.
  destruct (main_setup browser w) as [r1 w1] eqn:E1. cbn [fst snd] in *. subst r1.
  pose proof (configure_aws_keeps_creds browser (py "130670") w1) as H2.
  destruct (configure_aws_returns_text browser raw Hcoop
              (AWS.Obj (py "screenshots")) (py "130670") w1) as (_ & _ & Hconf).
  destruct (AWS.configure_aws browser (AWS.Obj (py "screenshots"))
              (py "130670") w1) as [r2 w2] eqn:E2.
  cbn [fst snd] in *. subst r2.
  assert (creds_state (collected w2) = creds_state w) as [Hcreds Hdirs]%creds_state_eq
    by (by rewrite <- H1, <- H2).
  assert (py "creds.txt" ∉ dirs (collected w2)) as Hdir2 by (by rewrite Hdirs).
  assert (main browser w = set_github_env a s t (collected w2)) as ->.
  { unfold main, mbind at 1, M_bind, bind. rewrite E1.
    unfold try_except, main_try, mbind, M_bind, bind. cbv zeta.
    rewrite E2, (get_secrets_any_world _ _ w2 _ Hparse).
    by rewrite set_github_env_returns. }
  rewrite set_github_env_returns by done. cbn [fst snd]. repeat split.
  unfold creds at 1. by rewrite content_written, Hcreds.
Qed.

Lemma main_succeeds_in_cooperative_browser_example :
  fst (main browser_lab_stopped world0) = Ok ()
  ∧ creds (snd (main browser_lab_stopped world0))
    = creds world0
      ++ unlines (env_lines (py "AKIA123") (py "SECRET456") (py "TOK=EN=789"))
  ∧ exit_status (fst (main browser_lab_stopped world0)) = 0.
Proof.
  apply (main_succeeds_in_cooperative_browser browser_lab_stopped
           (py "[default] aws_access_key_id=AKIA123 aws_secret_access_key=SECRET456 aws_session_token=TOK=EN=789")
           world0 (py "student@example.org") (py "hunter2")).
  - split; [|split].
    + intros h c. destruct c; by eexists.
    + intros h l name. by eexists.
    + done.
  - reflexivity.
  - reflexivity.
  - reflexivity.
  - apply encodable_text_forallb. reflexivity.
  - apply (bool_decide_unpack _). vm_compute. exact I.
Defined.

(** ** No failure is swallowed *)

Lemma main_setup_returned_clean browser :
  traces (λ r new, ∀ aws, r = Ok aws → Forall (λ ev, is_raised ev = false) new)
    (main_setup browser).
Proof.
  unfold main_setup, AWS.__init__, AWS._login. traces_all.
  all: intros aws' [=]. by repeat constructor.
Qed.

(** X11.  In a run of the script in which a call to the browser raised,
    whichever call it was, the script ends with an exception and the exit
    status is 1: no handler of the script lets a failure pass. *)
Theorem main_fails_when_a_call_raises browser w new c e :
  trace (snd (main browser w)) = trace w ++ new →
  Browser c (Raises e) ∈ new →
  (∃ e', fst (main browser w) = Raise e')
  ∧ exit_status (fst (main browser w)) = 1.
Proof.
  intros Htrace Hin.
  destruct (fst (main browser w)) as [u|e'] eqn:Hres; [exfalso|by eauto].
  destruct (main_setup_returned_clean browser w) as (new1 & E1 & H1).
  destruct (main_run browser w) as [(e0 & _ & Emain)|(w1 & Esetup & Emain)];
    [by rewrite Emain in Hres|].
  rewrite Esetup in E1, H1. cbn [fst snd] in *.
  destruct (main_try_except browser (AWS.Obj (py "screenshots")) w1)
    as [(w2 & Etry & Eexcept)|(e2 & w2 & e' & _ & Eexcept)];
    rewrite Emain, Eexcept in Hres, Htrace; [clear Hres|done].
  destruct (main_try_cases browser (AWS.Obj (py "screenshots")) w1)
    as [(e1 & Hraise & _)|(raw & a & s & t & w' & Econf & _ & Eenv)];
    [by rewrite Etry in Hraise|].
  rewrite Etry in Eenv. symmetry in Eenv.
  apply set_github_env_returned in Eenv as [_ ->].
  cbn [fst snd trace set_files collected emit] in Htrace.
  destruct (configure_aws_returned browser (AWS.Obj (py "screenshots"))
              (py "130670") w1) as (new2 & E2 & H2).
  rewrite Econf in E2, H2. cbn [fst snd] in *.
  destruct (H2 _ eq_refl) as (steps & v1 & v2 & v3 & v4 & _ & Hclean).
  rewrite E2, E1, <- !app_assoc in Htrace.
  apply app_inv_head in Htrace as <-.
  revert Hin. apply (not_of_kind is_raised); [reflexivity|].
  rewrite !Forall_app. repeat split; [by eapply H1|done|by repeat constructor].
Qed.

Lemma main_fails_when_a_call_raises_example :
  (∃ e', fst (main browser_confirmation_fails world0) = Raise e')
  ∧ exit_status (fst (main browser_confirmation_fails world0)) = 1.
Proof.
  apply (main_fails_when_a_call_raises browser_confirmation_fails world0
           (trace (snd (main browser_confirmation_fails world0)))
           (Screenshot (py "screenshots/3-conclude_login.png"))
           (new_exn PlaywrightError "Target page has been closed")).
  - reflexivity.
  - apply (list_elem_of_lookup_2 _ 15). reflexivity.
Defined.
